(** * MapMaker: the read / validate / plot pipeline of [streamlit_app.py]

    A shallow embedding of the functions [read_data], [read_file],
    [validate_data], [create_plot], [create_quantitative_plot] and
    [create_nominal_plot], and of what the main block computes from the
    validated table (the labels it offers and its call of the builder),
    followed by the properties proved about them.

    Python values are modelled as follows.
    - [str] is [string]; [str.lower] and [str.endswith] are written out.
    - An exception is a value of [exn]; a call returns an [outcome].
    - A pandas [DataFrame] is an ordered list of labelled columns; a label
      is a string or another object, and a column ([Series]) carries its
      dtype as the constructor it is built with.
    - [validate_data] assigns to [data.columns]: it runs in a small state and
      error monad whose state is the frame the caller passed in.
    - The Altair objects are records that hold what the builder passes.
      Altair checks an object while it is built and may refuse it: these
      checks belong to the library and are a parameter ([Altair]) of the
      builder, as the parsers of pandas are a parameter of the reader. *)

From Stdlib Require Import ZArith QArith Strings.String Strings.Ascii.
From Stdlib Require Import Strings.Byte Floats.SpecFloat.
From stdpp Require Import base list strings.

Local Open Scope string_scope.
Local Open Scope list_scope.

(* ===================================================================== *)
(** ** Python strings *)
(* ===================================================================== *)

Module Py.

(** [str.lower] on one character: the letters A-Z move to a-z.  Every other
    byte is kept, which is what [str.lower] does to the bytes of a UTF-8
    text as far as the ASCII letters of ".csv", ".xlsx" and "niscode" are
    concerned. *)
Definition lower_char (c : ascii) : ascii :=
  let n := nat_of_ascii c in
  if (65 <=? n)%nat && (n <=? 90)%nat then ascii_of_nat (n + 32) else c.

Fixpoint lower (s : string) : string :=
  match s with
  | EmptyString => EmptyString
  | String c s' => String (lower_char c) (lower s')
  end.

(** [s.endswith(suffix)]: the last [len(suffix)] characters of [s] are
    [suffix]. *)
Definition endswith (s suffix : string) : bool :=
  (String.length suffix <=? String.length s)%nat
  && String.eqb
       (substring (String.length s - String.length suffix)
                  (String.length suffix) s)
       suffix.

(** Iterating a [str] yields its characters as one-character strings. *)
Fixpoint chars (s : string) : list string :=
  match s with
  | EmptyString => []
  | String c s' => String c EmptyString :: chars s'
  end.

(** [enumerate(l, start)] *)
Fixpoint enumerate_from {A} (start : nat) (l : list A) : list (nat * A) :=
  match l with
  | [] => []
  | x :: l' => (start, x) :: enumerate_from (S start) l'
  end.

Definition enumerate {A} (l : list A) : list (nat * A) := enumerate_from 0 l.

(** The double quote character, for messages that contain it. *)
Definition dquote : string := String (ascii_of_nat 34) EmptyString.

End Py.

(* ===================================================================== *)
(** ** Exceptions and results *)
(* ===================================================================== *)

Inductive exn : Type :=
| ValueError (msg : string)
| TypeError (msg : string)
| IndexError (msg : string)
| AttributeError (msg : string)
| SchemaValidationError (msg : string)
| MaxRowsError (msg : string).

Inductive outcome (A : Type) : Type :=
| Returned (a : A)
| Raised (e : exn).
Arguments Returned {A} a.
Arguments Raised {A} e.

Definition obind {A B} (m : outcome A) (k : A → outcome B) : outcome B :=
  match m with
  | Returned a => k a
  | Raised e => Raised e
  end.

Declare Scope outcome_scope.
Delimit Scope outcome_scope with outcome.
Notation "x <- m ;; k" := (obind m (λ x, k))
  (at level 100, m at next level, right associativity) : outcome_scope.

(** [l[i]] and [l[i] = x] on a Python list, with the [IndexError] of an
    index past the end. *)
Definition getitem {A} (l : list A) (i : nat) : outcome A :=
  match l !! i with
  | Some x => Returned x
  | None => Raised (IndexError "list index out of range")
  end.

Definition setitem {A} (l : list A) (i : nat) (x : A) : outcome (list A) :=
  if (i <? length l)%nat then Returned (<[i := x]> l)
  else Raised (IndexError "list assignment index out of range").

(* ===================================================================== *)
(** ** Tables *)
(* ===================================================================== *)

(** Column types.  [int64] is what the validator asks for; the others stand
    for what the parsers produce instead when a column is not made of
    integers only. *)
Inductive dtype : Type := int64 | int32 | float64 | bool_ | object_.

Definition dtype_eqb (a b : dtype) : bool :=
  match a, b with
  | int64, int64 | int32, int32 | float64, float64
  | bool_, bool_ | object_, object_ => true
  | _, _ => false
  end.

(** One value of a column.  [I64 z] is a 64-bit integer of value [z];
    [PyInt] is a Python integer object, and [Null] is [None]; a missing
    number in a float column is the NaN of [F64]. *)
Inductive cell : Type :=
| I64 (z : Z)
| I32 (z : Z)
| F64 (f : spec_float)
| B (b : bool)
| Text (s : string)
| PyInt (z : Z)
| Null.

(** A column.  A numeric column stores values of its own type only; an
    [object] column stores any values. *)
Inductive Series : Type :=
| Int64Series (v : list Z)
| Int32Series (v : list Z)
| Float64Series (v : list spec_float)
| BoolSeries (v : list bool)
| ObjectSeries (v : list cell).

Definition series_dtype (s : Series) : dtype :=
  match s with
  | Int64Series _ => int64
  | Int32Series _ => int32
  | Float64Series _ => float64
  | BoolSeries _ => bool_
  | ObjectSeries _ => object_
  end.

Definition series_values (s : Series) : list cell :=
  match s with
  | Int64Series v => I64 <$> v
  | Int32Series v => I32 <$> v
  | Float64Series v => F64 <$> v
  | BoolSeries v => B <$> v
  | ObjectSeries v => v
  end.

Definition is_int64 (c : cell) : bool :=
  match c with I64 _ => true | _ => false end.

(** A column label.  A header cell that holds text gives a [str]; a header
    cell of a spreadsheet that holds a number or a date gives an object of
    another type, kept here by the name of its type and its text. *)
Inductive label : Type :=
| LStr (s : string)
| NonStr (type_name repr : string).

#[global] Instance label_eq_dec : EqDecision label.
Proof. solve_decision. Defined.

Definition is_str (l : label) : Prop :=
  match l with LStr _ => True | NonStr _ _ => False end.

#[global] Instance is_str_dec (l : label) : Decision (is_str l).
Proof. destruct l; simpl; apply _. Defined.

(** A frame: its columns in order, each with its label. *)
Abbreviation DataFrame := (list (label * Series)).

(** [data.columns] *)
Definition columns (data : DataFrame) : list label := data.*1.

(** [len(data)]: the number of rows, which is the length of every
    column. *)
Definition n_rows (data : DataFrame) : Z :=
  match data with
  | [] => 0
  | (_, s) :: _ => Z.of_nat (length (series_values s))
  end.

(** [data.columns = new]: the labels are replaced position by position;
    pandas refuses a list of another length. *)
Definition set_columns (data : DataFrame) (new : list label)
  : outcome DataFrame :=
  if (length new =? length data)%nat then Returned (zip new (data.*2))
  else Raised (ValueError "Length mismatch").

(** [data.<name>.dtype]: attribute access finds the column labelled [name].
    No such column is an [AttributeError]; with several columns of that
    label the attribute is a frame, which has no [dtype]. *)
Definition attr_dtype (data : DataFrame) (name : string) : outcome dtype :=
  match filter (λ c, c.1 = LStr name) data with
  | [] => Raised (AttributeError "'DataFrame' object has no attribute")
  | [c] => Returned (series_dtype c.2)
  | _ => Raised (AttributeError "'DataFrame' object has no attribute 'dtype'")
  end.

(* ===================================================================== *)
(** ** The state and error monad of the validator *)
(* ===================================================================== *)

(** A computation over the frame bound to [data]: it returns the frame as
    it is when the computation ends, normally or by an exception. *)
Definition M (A : Type) : Type := DataFrame → DataFrame * outcome A.

Definition ret {A} (a : A) : M A := λ st, (st, Returned a).
Definition raise {A} (e : exn) : M A := λ st, (st, Raised e).
Definition get : M DataFrame := λ st, (st, Returned st).
Definition put (st' : DataFrame) : M unit := λ _, (st', Returned ()).
Definition lift {A} (o : outcome A) : M A := λ st, (st, o).

Definition bind {A B} (m : M A) (k : A → M B) : M B :=
  λ st, match m st with
        | (st', Returned a) => k a st'
        | (st', Raised e) => (st', Raised e)
        end.

Declare Scope M_scope.
Delimit Scope M_scope with M.
Notation "x <- m ;; k" := (bind m (λ x, k))
  (at level 100, m at next level, right associativity) : M_scope.
Notation "m ;; k" := (bind m (λ _, k))
  (at level 100, right associativity) : M_scope.

(* ===================================================================== *)
(** ** Schema validator *)
(* ===================================================================== *)

(** The four failures of [validate_data].  The source raises [ValueError]
    for each; the message, kept as the source spells it, tells them
    apart. *)
Definition InsufficientColumns : exn :=
  ValueError "data should have at least a NIS code and a data column".
Definition AmbiguousJoinKey : exn :=
  ValueError "multiple columns have NIS code name".
Definition MissingJoinKey : exn :=
  ValueError "NIS code column is missing".
Definition InvalidJoinKeyType : exn :=
  ValueError "data type for NIS code is incorret, should be integer".

(** What [col_name.lower()] raises on a label that is not a [str]. *)
Definition NoLower (type_name : string) : exn :=
  AttributeError ("'" +:+ type_name +:+ "' object has no attribute 'lower'").

(** [col_name.lower()] *)
Definition label_lower (col_name : label) : outcome string :=
  match col_name with
  | LStr s => Returned (Py.lower s)
  | NonStr type_name _ => Raised (NoLower type_name)
  end.

(** [[idx for idx, col_name in enumerate(cols)
          if col_name.lower() == 'niscode']], over the enumerated labels:
    the labels are taken in order, and the first one without [lower] ends
    the scan. *)
Fixpoint nis_code_scan (enumerated : list (nat * label))
  : outcome (list nat) :=
  match enumerated with
  | [] => Returned []
  | (idx, col_name) :: rest =>
      (lowered <- label_lower col_name ;;
       found <- nis_code_scan rest ;;
       Returned (if decide (lowered = "niscode") then idx :: found
                 else found))%outcome
  end.

Definition nis_code_positions (cols : list label) : outcome (list nat) :=
  nis_code_scan (Py.enumerate cols).

(** [validate_data(data)].  The state is the frame bound to [data]; the
    assignment to [data.columns] is the [put], and the dtype test reads the
    frame as that assignment left it. *)
Definition validate_data : M unit :=
  (data <- get ;;
   if (length (columns data) <? 2)%nat then raise InsufficientColumns
   else
     nis_code_pos <- lift (nis_code_positions (columns data)) ;;
     (if (1 <? length nis_code_pos)%nat then raise AmbiguousJoinKey
      else if (length nis_code_pos =? 0)%nat then raise MissingJoinKey
      else
        let columns := columns data in
        pos <- lift (getitem nis_code_pos 0) ;;
        columns <- lift (setitem columns pos (LStr "niscode")) ;;
        data' <- lift (set_columns data columns) ;;
        put data') ;;
     dt <- (data <- get ;; lift (attr_dtype data "niscode")) ;;
     if negb (dtype_eqb dt int64) then raise InvalidJoinKeyType
     else ret ())%M.

(** The frame after the call, and how the call ended. *)
Definition frame_after (data : DataFrame) : DataFrame := (validate_data data).1.
Definition result_of (data : DataFrame) : outcome unit := (validate_data data).2.

(** A label matches when it is a string that reads "niscode" once case is
    ignored. *)
Definition matches_niscode (l : label) : Prop :=
  match l with
  | LStr s => Py.lower s = "niscode"
  | NonStr _ _ => False
  end.

#[global] Instance matches_niscode_dec (l : label)
  : Decision (matches_niscode l).
Proof. destruct l; simpl; apply _. Defined.

(** How many column labels match. *)
Definition n_matches (data : DataFrame) : nat :=
  length (filter matches_niscode (columns data)).

(** Every column label is a string. *)
Definition all_str (data : DataFrame) : Prop :=
  Forall is_str (columns data).

(** A label with its letters in lower case, when it is a string. *)
Definition lower_label (l : label) : label :=
  match l with
  | LStr s => LStr (Py.lower s)
  | NonStr _ _ => l
  end.

(** The type of the first label that is not a string, if there is one. *)
Fixpoint first_non_str (cols : list label) : option string :=
  match cols with
  | [] => None
  | LStr _ :: rest => first_non_str rest
  | NonStr type_name _ :: _ => Some type_name
  end.

Definition table1 : DataFrame :=
  [(LStr "NisCode", Int64Series [1000%Z]);
   (LStr "Name", ObjectSeries [Text "Antwerp"]);
   (LStr "Value", Int64Series [42%Z])].

(** The labels and dtypes of [table1], with other values and three
    rows. *)
Definition table1_other_values : DataFrame :=
  [(LStr "NisCode", Int64Series [2000%Z; 2000%Z; (-1)%Z]);
   (LStr "Name", ObjectSeries [Null; Text "Gent"; Text "Gent"]);
   (LStr "Value", Int64Series [0%Z; 7%Z; 7%Z])].

Definition single_column_table : DataFrame :=
  [(LStr "NisCode", Int64Series [1000%Z])].

Definition text_key_table : DataFrame :=
  [(LStr "NISCODE", ObjectSeries [Text "1000"]);
   (LStr "Value", Int64Series [42%Z])].

Definition float_key_table : DataFrame :=
  [(LStr "NisCode", Float64Series [S754_finite false 2001 (-1)]);
   (LStr "Value", Int64Series [42%Z])].

(** A spreadsheet whose second header cell holds the number 2020. *)
Definition year_header_table : DataFrame :=
  [(LStr "Code", Int64Series [1000%Z]);
   (NonStr "int" "2020", Int64Series [42%Z])].

Definition year_header_key_table : DataFrame :=
  [(LStr "NisCode", Int64Series [1000%Z]);
   (NonStr "int" "2020", Int64Series [42%Z])].
(* ===================================================================== *)
(** ** Tabular reader *)
(* ===================================================================== *)

(** What the pandas parsers are given: a path or URI, or an in-memory
    buffer ([io.BytesIO(byte_stream)]). *)
Inductive source : Type :=
| Path (uri : string)
| BytesIO (byte_stream : list Byte.byte).

(** The failure of the reader: [ValueError(f'file type of ... is unknown')],
    with the name between two pairs of double quotes as the literal of the
    source has it. *)
Definition UnsupportedFormat (name : string) : exn :=
  ValueError ("file type of " +:+ Py.dquote +:+ Py.dquote +:+ name
              +:+ Py.dquote +:+ Py.dquote +:+ " is unknown").

Section Reader.
(** [pd.read_csv(src, encoding=..., delimiter=...)] and
    [pd.read_excel(src)]: the parsers of pandas, not of this program. *)
Variable pd_read_csv :
  source → option string → option string → outcome DataFrame.
Variable pd_read_excel : source → outcome DataFrame.

Definition read_data (uri : string) (encoding delimiter : option string)
  : outcome DataFrame :=
  if Py.endswith (Py.lower uri) ".csv" then
    pd_read_csv (Path uri) encoding delimiter
  else if Py.endswith (Py.lower uri) ".xlsx" then
    pd_read_excel (Path uri)
  else Raised (UnsupportedFormat uri).

Definition read_file (name : string) (byte_stream : list Byte.byte)
    (encoding delimiter : option string) : outcome DataFrame :=
  if Py.endswith (Py.lower name) ".csv" then
    pd_read_csv (BytesIO byte_stream) encoding delimiter
  else if Py.endswith (Py.lower name) ".xlsx" then
    pd_read_excel (BytesIO byte_stream)
  else Raised (UnsupportedFormat name).
End Reader.

(** A name ends in [ext] when case is ignored. *)
Definition has_extension (ext name : string) : Prop :=
  ∃ stem tail, name = stem +:+ tail ∧ Py.lower tail = ext.

(** [msg] contains [name]. *)
Definition mentions (msg name : string) : Prop :=
  ∃ before after, msg = before +:+ name +:+ after.

(* ===================================================================== *)
(** ** Plot specification *)
(* ===================================================================== *)

(** A value an argument of the builder can be bound to: [None], a string,
    a number, a list of strings, or an iterator over strings (what
    [iter(...)] or a generator gives), which yields the elements it has
    left once and is empty afterwards. *)
Inductive pyval : Type :=
| PyNone
| PyStr (s : string)
| PyFloat (q : Q)
| PyList (l : list string)
| PyIterator (rest : list string).

Definition is_None (v : pyval) : bool :=
  match v with PyNone => true | _ => false end.

(** [for x in v]: the elements [v] yields and [v] as the iteration leaves
    it, or the [TypeError] of a value that cannot be iterated. *)
Definition py_iter (v : pyval) : outcome (list string * pyval) :=
  match v with
  | PyList l => Returned (l, v)
  | PyStr s => Returned (Py.chars s, v)
  | PyIterator rest => Returned (rest, PyIterator [])
  | PyNone => Raised (TypeError "'NoneType' object is not iterable")
  | PyFloat _ => Raised (TypeError "'float' object is not iterable")
  end.

Definition DATA_TYPES : list (string * string) :=
  [("quantitative", "Q"); ("ordinal", "O"); ("nominal", "N")].

(** [DATA_TYPES[scale_type]] *)
Definition scale_code (scale_type : string) : option string :=
  (λ hit, hit.2.2) <$> list_find (λ entry, entry.1 = scale_type) DATA_TYPES.

(** [alt.topo_feature(url, feature)] *)
Record TopoData : Type := topo_feature { topo_url : string; feature : string }.

Definition create_topo_data (url feature : string) : TopoData :=
  topo_feature url feature.

Record Legend : Type := mkLegend { title : pyval }.
Record Scale : Type := mkScale { scheme_of : pyval }.

(** A colour channel: [alt.Color(shorthand, legend=..., scale=...)], or a
    constant [alt.value(v)]. *)
Inductive ColorDef : Type :=
| Color (shorthand : string) (legend : Legend) (scale : Scale)
| ColorValue (v : pyval).

(** [mark_geoshape(...)]: a keyword that is not passed is [None] here. *)
Record MarkDef : Type := mkMark {
  mark_type : string;
  mark_stroke : option pyval;
  mark_strokeWidth : option pyval
}.

(** [alt.LookupData(data, key, fields)] *)
Record LookupData : Type := mkLookupData {
  lookup_data : DataFrame;
  lookup_key : string;
  lookup_fields : list string
}.

Record LookupTransform : Type := mkLookup {
  lookup : string;
  from_ : LookupData
}.

Record Chart : Type := mkChart {
  chart_data : TopoData;
  mark : option MarkDef;
  encoding_color : option ColorDef;
  encoding_opacity : option pyval;
  encoding_tooltip : option (list string);
  transform : list LookupTransform;
  width : option Z;
  height : option Z
}.

(** [a + b] in Altair: the charts as layers, in that order; a later layer
    is drawn over the earlier ones. *)
Record LayerChart : Type := mkLayerChart { layer : list Chart }.

(** *** What the builder's calls assemble *)

Definition new_chart (topo_data : TopoData) : Chart :=
  mkChart topo_data None None None None [] None None.

Definition with_mark (stroke strokeWidth : option pyval) (c : Chart)
  : Chart :=
  mkChart (chart_data c) (Some (mkMark "geoshape" stroke strokeWidth))
          (encoding_color c) (encoding_opacity c) (encoding_tooltip c)
          (transform c) (width c) (height c).

(** [.encode(color=..., opacity=..., tooltip=...)]: the channels that are
    passed replace those of the chart. *)
Definition with_encoding (color : option ColorDef) (opacity : option pyval)
    (tooltip : option (list string)) (c : Chart) : Chart :=
  mkChart (chart_data c) (mark c)
          (from_option Some (encoding_color c) color)
          (from_option Some (encoding_opacity c) opacity)
          (from_option Some (encoding_tooltip c) tooltip)
          (transform c) (width c) (height c).

Definition with_lookup (lookup : string) (from_ : LookupData)
    (c : Chart) : Chart :=
  mkChart (chart_data c) (mark c) (encoding_color c) (encoding_opacity c)
          (encoding_tooltip c) (transform c ++ [mkLookup lookup from_])
          (width c) (height c).

Definition with_size (width height : Z) (c : Chart) : Chart :=
  mkChart (chart_data c) (mark c) (encoding_color c) (encoding_opacity c)
          (encoding_tooltip c) (transform c) (Some width) (Some height).

Definition layered (a b : Chart) : LayerChart := mkLayerChart [a; b].

(** *** The checks of Altair *)

(** Altair checks an object against its schema, and a table against its
    row limit, when the object is built, and raises when it refuses it.
    The checks are the library's: they are a parameter here, one check for
    each kind of object the builder builds, with two facts about them.
    - [max_rows]: a lookup over a table of more than 5000 rows is refused
      (the row limit of the default data transformer).
    - [null_stroke_width]: a mark whose [strokeWidth] is [None] is
      refused (the schema asks for a number). *)
Record Altair : Type := mkAltair {
  check_legend : Legend → outcome unit;
  check_scale : Scale → outcome unit;
  check_color : ColorDef → outcome unit;
  check_chart : Chart → outcome unit;
  check_lookup_data : LookupData → outcome unit;
  check_layers : LayerChart → outcome unit;
  max_rows : ∀ ld,
    (5000 < n_rows (lookup_data ld))%Z →
    ∃ e, check_lookup_data ld = Raised e;
  null_stroke_width : ∀ c m,
    mark c = Some m → mark_strokeWidth m = Some PyNone →
    ∃ e, check_chart c = Raised e
}.

(** [e] is raised by one of the checks. *)
Definition altair_raised (A : Altair) (e : exn) : Prop :=
  (∃ x, check_legend A x = Raised e)
  ∨ (∃ x, check_scale A x = Raised e)
  ∨ (∃ x, check_color A x = Raised e)
  ∨ (∃ x, check_chart A x = Raised e)
  ∨ (∃ x, check_lookup_data A x = Raised e)
  ∨ (∃ x, check_layers A x = Raised e).

(** Building [x]: it is checked, and returned when the check passes. *)
Definition checked {X} (check : X → outcome unit) (x : X) : outcome X :=
  (_ <- check x ;; Returned x)%outcome.

(** The values of the parameters of [create_plot] that have a default. *)
Module Default.
Definition tooltip_columns : pyval := PyNone.
Definition stroke : pyval := PyStr "darkgrey".
Definition strokeWidth : pyval := PyFloat (9 # 10).
Definition legend_title : pyval := PyNone.
Definition scheme : pyval := PyStr "reds".
Definition missing_color : pyval := PyStr "white".
End Default.

Section Builder.
Variable A : Altair.

Definition alt_Legend (title : pyval) : outcome Legend :=
  checked (check_legend A) (mkLegend title).

Definition alt_Scale (scheme : pyval) : outcome Scale :=
  checked (check_scale A) (mkScale scheme).

Definition alt_Color (shorthand : string) (legend : Legend) (scale : Scale)
  : outcome ColorDef :=
  checked (check_color A) (Color shorthand legend scale).

(** [alt.value(v)] is a plain dictionary: nothing is checked. *)
Definition alt_value (v : pyval) : pyval := v.

Definition alt_Chart (topo_data : TopoData) : outcome Chart :=
  checked (check_chart A) (new_chart topo_data).

Definition mark_geoshape (stroke strokeWidth : option pyval) (c : Chart)
  : outcome Chart :=
  checked (check_chart A) (with_mark stroke strokeWidth c).

Definition encode (color : option ColorDef) (opacity : option pyval)
    (tooltip : option (list string)) (c : Chart) : outcome Chart :=
  checked (check_chart A) (with_encoding color opacity tooltip c).

Definition alt_LookupData (data : DataFrame) (key : string)
    (fields : list string) : outcome LookupData :=
  checked (check_lookup_data A) (mkLookupData data key fields).

Definition transform_lookup (lookup : string) (from_ : LookupData)
    (c : Chart) : outcome Chart :=
  checked (check_chart A) (with_lookup lookup from_ c).

Definition properties (width height : Z) (c : Chart) : outcome Chart :=
  checked (check_chart A) (with_size width height c).

Definition layer_add (a b : Chart) : outcome LayerChart :=
  checked (check_layers A) (layered a b).

(** [create_plot(topo_data, data, column_name, data_type,
                 tooltip_columns=None, stroke='darkgrey', strokeWidth=0.9,
                 legend_title=None, scheme='reds', missing_color='white')].
    The calls are made in the order in which Python evaluates them: the
    arguments of a call before the call, from left to right. *)
Definition create_plot (topo_data : TopoData) (data : DataFrame)
    (column_name data_type : string)
    (tooltip_columns stroke strokeWidth legend_title scheme
       missing_color : pyval) : outcome LayerChart :=
  (let lookup_columns := [column_name] in
   extended <-
     (if negb (is_None tooltip_columns) then
        it <- py_iter tooltip_columns ;;
        Returned (lookup_columns ++ it.1, it.2)
      else Returned (lookup_columns, tooltip_columns)) ;;
   let lookup_columns := extended.1 in
   let tooltip_columns := extended.2 in
   let legend_title :=
     if is_None legend_title then PyStr column_name else legend_title in
   chart <- alt_Chart topo_data ;;
   chart <- mark_geoshape None None chart ;;
   legend <- alt_Legend legend_title ;;
   scale <- alt_Scale scheme ;;
   color <- alt_Color (column_name +:+ ":" +:+ data_type) legend scale ;;
   it <- py_iter tooltip_columns ;;
   let tooltip := (λ column, column +:+ ":N") <$> it.1 in
   chart <- encode (Some color) None (Some tooltip) chart ;;
   from_ <- alt_LookupData data "niscode" lookup_columns ;;
   chart <- transform_lookup "properties.CODE_INS" from_ chart ;;
   base <- properties 600 450 chart ;;
   outline <- alt_Chart topo_data ;;
   outline <- mark_geoshape (Some stroke) (Some strokeWidth) outline ;;
   outline <- encode (Some (ColorValue (alt_value missing_color)))
                     (Some (alt_value (PyFloat (9 # 10)))) None outline ;;
   layer_add outline base)%outcome.

(** [create_quantitative_plot(topo_data, data, column_name,
        stroke='lightgrey', strokeWidth=0.5, legend_title=None,
        scheme='reds', missing_color='white')].
    The call in its body passes nine arguments by position, so they bind
    to the first nine parameters of [create_plot]; the tenth keeps its
    default. *)
Definition create_quantitative_plot (topo_data : TopoData) (data : DataFrame)
    (column_name : string)
    (stroke strokeWidth legend_title scheme missing_color : pyval)
  : outcome LayerChart :=
  create_plot topo_data data column_name "Q"
              stroke strokeWidth legend_title scheme missing_color
              Default.missing_color.

Definition create_nominal_plot (topo_data : TopoData) (data : DataFrame)
    (column_name : string)
    (stroke strokeWidth legend_title scheme missing_color : pyval)
  : outcome LayerChart :=
  create_plot topo_data data column_name "N"
              stroke strokeWidth legend_title scheme missing_color
              Default.missing_color.
End Builder.

(** The layer of [create_plot] that the source binds to [base], as it is
    when every check has passed: the boundary features joined with the
    table and coloured by the chosen column. *)
Definition data_layer (topo_data : TopoData) (data : DataFrame)
    (column_name data_type : string) (legend_title scheme : pyval)
    (tooltip lookup_columns : list string) : Chart :=
  with_size 600 450
    (with_lookup "properties.CODE_INS"
       (mkLookupData data "niscode" lookup_columns)
       (with_encoding
          (Some (Color (column_name +:+ ":" +:+ data_type)
                       (mkLegend legend_title) (mkScale scheme)))
          None
          (Some tooltip)
          (with_mark None None (new_chart topo_data)))).

(** The other layer: every boundary feature, outlined and filled with the
    colour for missing data. *)
Definition outline_layer (topo_data : TopoData)
    (stroke strokeWidth missing_color : pyval) : Chart :=
  with_encoding (Some (ColorValue missing_color)) (Some (PyFloat (9 # 10)))
    None
    (with_mark (Some stroke) (Some strokeWidth) (new_chart topo_data)).

(** The defaults of the two convenience entry points. *)
Module PresetDefault.
Definition stroke : pyval := PyStr "lightgrey".
Definition strokeWidth : pyval := PyFloat (1 # 2).
Definition legend_title : pyval := PyNone.
Definition scheme : pyval := PyStr "reds".
Definition missing_color : pyval := PyStr "white".
End PresetDefault.

(** *** An instance of the checks, for the examples *)

Definition row_limit_check (ld : LookupData) : outcome unit :=
  if (5000 <? n_rows (lookup_data ld))%Z then
    Raised (MaxRowsError "The number of rows in your dataset is greater than the maximum allowed (5000).")
  else Returned ().

Definition stroke_width_check (c : Chart) : outcome unit :=
  match mark c with
  | Some (mkMark _ _ (Some PyNone)) =>
      Raised (SchemaValidationError "None is not of type 'number'")
  | _ => Returned ()
  end.

Lemma row_limit_check_refuses (ld : LookupData) :
  (5000 < n_rows (lookup_data ld))%Z → ∃ e, row_limit_check ld = Raised e.
Proof.
  intros Hrows. unfold row_limit_check.
  destruct (Z.ltb_spec 5000 (n_rows (lookup_data ld))); [eauto | lia].
Qed.

Lemma stroke_width_check_refuses (c : Chart) (m : MarkDef) :
  mark c = Some m → mark_strokeWidth m = Some PyNone →
  ∃ e, stroke_width_check c = Raised e.
Proof.
  intros Hm Hw. unfold stroke_width_check. rewrite Hm.
  destruct m as [ty st sw]. simpl in Hw. rewrite Hw. eauto.
Qed.

(** It applies the row limit and refuses a null stroke width, and accepts
    every other object. *)
Definition lenient_altair : Altair :=
  mkAltair (λ _, Returned ()) (λ _, Returned ()) (λ _, Returned ())
           stroke_width_check row_limit_check (λ _, Returned ())
           row_limit_check_refuses stroke_width_check_refuses.

Definition BE_GEO_URL : string :=
  "https://gist.githubusercontent.com/jandot/ba7eff2e15a38c6f809ba5e8bd8b6977/raw/eb49ce8dd2604e558e10e15d9a3806f114744e80/belgium_municipalities_topojson.json".
Definition BE_MUNICIPALITIES_FEATURE : string := "BE_municipalities".

Definition topo_municipalities : TopoData :=
  create_topo_data BE_GEO_URL BE_MUNICIPALITIES_FEATURE.


(* ===================================================================== *)
(** ** The application: what it offers and how it calls the builder *)
(* ===================================================================== *)

(** [[column for column in data.columns if column not in ('niscode',)]]:
    the labels offered for the data column and for the tooltip columns. *)
Definition data_column_options (data : DataFrame) : list label :=
  filter (λ column, column ∉ [LStr "niscode"]) (columns data).

(** The call of the builder in the main block: the chosen column, scale
    code, tooltip names, colour scheme and missing colour are passed by
    keyword; stroke, stroke width and legend title keep their defaults. *)
Definition main_create_plot (A : Altair) (data : DataFrame)
    (column_name data_type : string) (tooltip_names : list string)
    (color_scheme missing_color : string) : outcome LayerChart :=
  create_plot A topo_municipalities data column_name data_type
              (PyList tooltip_names) Default.stroke Default.strokeWidth
              Default.legend_title (PyStr color_scheme) (PyStr missing_color).
(* ===================================================================== *)
(** ** Facts about the Python string operations *)
(* ===================================================================== *)

Module PyFacts.
Import Py.

Lemma app_cons (c : ascii) (a b : string) :
  String c a +:+ b = String c (a +:+ b).
Proof. reflexivity. Qed.

Lemma app_nil (b : string) : "" +:+ b = b.
Proof. reflexivity. Qed.

Lemma lower_app (a b : string) : lower (a +:+ b) = lower a +:+ lower b.
Proof. induction a as [|c a IH]; simpl; [done | by rewrite IH]. Qed.

Lemma lower_length (s : string) : String.length (lower s) = String.length s.
Proof. induction s as [|c s IH]; simpl; [done | by rewrite IH]. Qed.

(** A split of [lower s] comes from a split of [s]. *)
Lemma lower_eq_app (s a b : string) :
  lower s = a +:+ b → ∃ s1 s2, s = s1 +:+ s2 ∧ lower s1 = a ∧ lower s2 = b.
Proof.
  revert s. induction a as [|c a IH]; intros s Hs.
  - exists "", s. by simpl in *.
  - destruct s as [|c0 s]; simpl in Hs; [discriminate|].
    injection Hs as Hc Hrest.
    destruct (IH s Hrest) as (s1 & s2 & -> & H1 & H2).
    exists (String c0 s1), s2. simpl. by rewrite Hc, H1.
Qed.

Lemma app_length (a b : string) :
  String.length (a +:+ b) = String.length a + String.length b.
Proof. induction a as [|c a IH]; simpl; [done | by rewrite IH]. Qed.

Lemma substring_all (s : string) : substring 0 (String.length s) s = s.
Proof. induction s as [|c s IH]; simpl; [done | by rewrite IH]. Qed.

Lemma substring_skip (p t : string) (m : nat) :
  substring (String.length p) m (p +:+ t) = substring 0 m t.
Proof. induction p as [|c p IH]; simpl; [done | apply IH]. Qed.

Lemma substring_split (k : nat) (s : string) :
  (k ≤ String.length s)%nat →
  s = substring 0 k s +:+ substring k (String.length s - k) s.
Proof.
  revert s. induction k as [|k IH]; intros s Hk.
  - rewrite Nat.sub_0_r, substring_all. by destruct s.
  - destruct s as [|c s]; simpl in *; [lia|].
    rewrite (IH s) at 1 by lia. reflexivity.
Qed.

(** [endswith] holds exactly of the strings that are some prefix followed
    by the suffix. *)
Lemma endswith_iff (s suffix : string) :
  endswith s suffix = true ↔ ∃ p, s = p +:+ suffix.
Proof.
  unfold endswith. rewrite andb_true_iff, Nat.leb_le, String.eqb_eq. split.
  - intros [Hle Hsub].
    exists (substring 0 (String.length s - String.length suffix) s).
    pose proof (substring_split (String.length s - String.length suffix) s)
      as Hsplit.
    replace (String.length s - (String.length s - String.length suffix))
      with (String.length suffix) in Hsplit by lia.
    rewrite Hsub in Hsplit. apply Hsplit. lia.
  - intros [p ->]. rewrite app_length. split; [lia|].
    replace (String.length p + String.length suffix - String.length suffix)
      with (String.length p) by lia.
    by rewrite substring_skip, substring_all.
Qed.

Lemma endswith_lower_iff (name ext : string) :
  endswith (lower name) ext = true ↔ has_extension ext name.
Proof.
  rewrite endswith_iff. unfold has_extension. split.
  - intros [p Hp]. apply lower_eq_app in Hp as (s1 & s2 & -> & _ & H2).
    by exists s1, s2.
  - intros (stem & tail & -> & <-). exists (lower stem). apply lower_app.
Qed.

Lemma app_assoc (a b c : string) : (a +:+ b) +:+ c = a +:+ (b +:+ c).
Proof. induction a as [|x a IH]; [done | by rewrite !app_cons, IH]. Qed.

Lemma last_char_eq (p q : string) (a b : ascii) :
  p +:+ String a "" = q +:+ String b "" → a = b.
Proof.
  revert q. induction p as [|c p IH]; intros [|d q] H;
    rewrite ?app_cons, ?app_nil in H.
  - by injection H.
  - injection H as _ H. by destruct q.
  - injection H as _ H. by destruct p.
  - injection H as _ H. by apply (IH q).
Qed.

(** No name ends both in ".csv" and in ".xlsx". *)
Lemma csv_xlsx_disjoint (s : string) :
  endswith s ".xlsx" = true → endswith s ".csv" = false.
Proof.
  intros Hx. apply not_true_is_false. intros Hc.
  apply endswith_iff in Hx as [p Hp]. apply endswith_iff in Hc as [q Hq].
  rewrite Hp in Hq.
  change ".xlsx" with (".xls" +:+ "x") in Hq.
  change ".csv" with (".cs" +:+ "v") in Hq.
  rewrite <- !app_assoc in Hq. apply last_char_eq in Hq. discriminate.
Qed.

Lemma UnsupportedFormat_mentions (name : string) :
  ∃ msg, UnsupportedFormat name = ValueError msg ∧ mentions msg name.
Proof.
  eexists. split; [reflexivity|].
  exists ("file type of " +:+ dquote +:+ dquote),
         (dquote +:+ dquote +:+ " is unknown").
  by rewrite !app_assoc.
Qed.

End PyFacts.

(* ===================================================================== *)
(** ** Facts about lists, positions and frames *)
(* ===================================================================== *)

Section filter_facts.
Context {A : Type} (P : A → Prop) {Pdec : ∀ x, Decision (P x)}.

(** When exactly one element satisfies [P], none does before it and none
    after it. *)
Lemma filter_one_split (l : list A) (i : nat) (x : A) :
  length (filter P l) = 1 → l !! i = Some x → P x →
  filter P (take i l) = [] ∧ filter P (drop (S i) l) = [].
Proof.
  intros Hlen Hi HP.
  rewrite <- (take_drop_middle l i x Hi) in Hlen.
  rewrite filter_app, filter_cons_True, length_app in Hlen by done.
  simpl in Hlen. split; apply nil_length_inv; lia.
Qed.

Lemma filter_one_witness (l : list A) :
  length (filter P l) = 1 → ∃ i x, l !! i = Some x ∧ P x.
Proof.
  intros Hlen. destruct (filter P l) as [|x [|??]] eqn:Hf; try discriminate.
  assert (x ∈ filter P l) as Hx by (rewrite Hf; left).
  apply list_elem_of_filter in Hx as [HP Hin].
  apply list_elem_of_lookup in Hin as [i Hi]. eauto.
Qed.

(** With exactly one element satisfying [P], at position [i], no other
    position holds one. *)
Lemma filter_one_unique (l : list A) (i j : nat) (x y : A) :
  length (filter P l) = 1 → l !! i = Some x → P x →
  l !! j = Some y → P y → j = i.
Proof.
  intros Hlen Hi HPx Hj HPy.
  destruct (filter_one_split l i x Hlen Hi HPx) as [Hbefore Hafter].
  destruct (Nat.lt_trichotomy j i) as [Hlt|[->|Hgt]]; [|done|].
  - exfalso. eapply (filter_nil_not_elem_of P _ y Hbefore HPy).
    apply list_elem_of_lookup. exists j. by rewrite lookup_take_lt.
  - exfalso. eapply (filter_nil_not_elem_of P _ y Hafter HPy).
    apply list_elem_of_lookup. exists (j - S i).
    rewrite lookup_drop. by replace (S i + (j - S i)) with j by lia.
Qed.

Lemma enumerate_from_filter_length (n : nat) (l : list A) :
  length (filter (λ p, P p.2) (Py.enumerate_from n l))
  = length (filter P l).
Proof.
  revert n. induction l as [|x l IH]; intros n; [done|].
  simpl. rewrite !filter_cons. simpl.
  destruct (decide (P x)); simpl; by rewrite IH.
Qed.

Lemma enumerate_from_app (n : nat) (l1 l2 : list A) :
  Py.enumerate_from n (l1 ++ l2)
  = Py.enumerate_from n l1 ++ Py.enumerate_from (n + length l1) l2.
Proof.
  revert n. induction l1 as [|x l1 IH]; intros n; simpl.
  - by rewrite Nat.add_0_r.
  - rewrite IH. do 3 f_equal. lia.
Qed.

Lemma enumerate_from_filter_nil (n : nat) (l : list A) :
  filter P l = [] → filter (λ p, P p.2) (Py.enumerate_from n l) = [].
Proof.
  intros Hnil. apply nil_length_inv.
  by rewrite enumerate_from_filter_length, Hnil.
Qed.

(** The positions that satisfy [P], when there is exactly one. *)
Lemma positions_unique (l : list A) (i : nat) (x : A) :
  length (filter P l) = 1 → l !! i = Some x → P x →
  (filter (λ p, P p.2) (Py.enumerate l)).*1 = [i].
Proof.
  intros Hlen Hi HP.
  destruct (filter_one_split l i x Hlen Hi HP) as [Hbefore Hafter].
  unfold Py.enumerate. rewrite <- (take_drop_middle l i x Hi) at 1.
  rewrite enumerate_from_app. simpl.
  rewrite filter_app, filter_cons_True by done.
  rewrite !enumerate_from_filter_nil by done. simpl.
  rewrite length_take_le; [done|].
  apply lookup_lt_Some in Hi. lia.
Qed.
End filter_facts.

Section frame_facts.
Implicit Types (data : DataFrame) (s : Series) (cols : list label).

Lemma first_non_str_None cols :
  first_non_str cols = None ↔ Forall is_str cols.
Proof.
  induction cols as [|[t|ty r] cols IH]; simpl.
  - split; [by constructor | done].
  - rewrite IH. split; [by constructor | by inversion 1].
  - split; [done | by inversion 1].
Qed.

(** The scan of the labels: it ends at the first label that is not a
    string, and otherwise lists the positions of the labels that match. *)
Lemma nis_code_scan_spec (n : nat) cols :
  nis_code_scan (Py.enumerate_from n cols)
  = match first_non_str cols with
    | Some type_name => Raised (NoLower type_name)
    | None =>
        Returned
          (filter (λ p, matches_niscode p.2) (Py.enumerate_from n cols)).*1
    end.
Proof.
  revert n. induction cols as [|[t|ty r] cols IH]; intros n; simpl; [done| |done].
  rewrite IH. destruct (first_non_str cols); simpl; [done|].
  rewrite filter_cons. simpl.
  destruct (decide (Py.lower t = "niscode")); by rewrite ?decide_True, ?decide_False.
Qed.

Lemma nis_code_positions_all_str data :
  all_str data →
  nis_code_positions (columns data)
  = Returned
      (filter (λ p, matches_niscode p.2) (Py.enumerate (columns data))).*1.
Proof.
  intros Hstr%first_non_str_None. unfold nis_code_positions, Py.enumerate.
  by rewrite nis_code_scan_spec, Hstr.
Qed.

Lemma positions_length data :
  length (filter (λ p, matches_niscode p.2)
            (Py.enumerate (columns data))).*1
  = n_matches data.
Proof.
  unfold n_matches, Py.enumerate. rewrite length_fmap.
  apply (enumerate_from_filter_length matches_niscode).
Qed.

Lemma columns_lookup data i l s :
  data !! i = Some (l, s) → columns data !! i = Some l.
Proof. intros H. unfold columns. by rewrite list_lookup_fmap, H. Qed.

(** Replacing the [i]-th label and zipping the labels back onto the
    columns changes the [i]-th entry of the frame only. *)
Lemma zip_insert_label data i old s (new : label) :
  data !! i = Some (old, s) →
  zip (<[i := new]> (data.*1)) (data.*2) = <[i := (new, s)]> data.
Proof.
  revert i. induction data as [|[n c] data IH]; intros [|i] H;
    simplify_eq/=; [by rewrite zip_fst_snd | by rewrite IH].
Qed.

(** No label equal to "niscode" among columns none of whose labels
    matches it when case is ignored. *)
Lemma no_match_no_label data :
  filter matches_niscode (columns data) = [] →
  filter (λ c : label * Series, c.1 = LStr "niscode") data = [].
Proof.
  unfold columns. induction data as [|[n c] data IH]; [done|].
  rewrite fmap_cons, !filter_cons. simpl.
  destruct (decide (matches_niscode n)) as [|Hn]; [done|].
  intros Hrest.
  destruct (decide (n = LStr "niscode")) as [->|]; [|by apply IH].
  by destruct Hn.
Qed.

Lemma attr_dtype_renamed data i old s :
  n_matches data = 1 → data !! i = Some (old, s) → matches_niscode old →
  attr_dtype (<[i := (LStr "niscode", s)]> data) "niscode"
  = Returned (series_dtype s).
Proof.
  intros Hone Hi Hold. unfold n_matches in Hone.
  destruct (filter_one_split _ _ i old Hone (columns_lookup _ _ _ _ Hi) Hold)
    as [Hbefore Hafter].
  unfold columns in Hbefore, Hafter.
  rewrite <- fmap_take in Hbefore. rewrite <- fmap_drop in Hafter.
  apply no_match_no_label in Hbefore, Hafter.
  unfold attr_dtype.
  rewrite insert_take_drop by (by eapply lookup_lt_Some).
  rewrite filter_app, filter_cons_True by done.
  by rewrite Hbefore, Hafter.
Qed.

Lemma lower_label_matches (l : label) :
  matches_niscode l ↔ lower_label l = LStr "niscode".
Proof. destruct l; simpl; [|done]. split; [by intros -> | by intros [= ->]]. Qed.

Lemma n_matches_lowered data :
  n_matches data
  = length (filter (λ l, l = LStr "niscode") (lower_label <$> columns data)).
Proof.
  unfold n_matches. induction (columns data) as [|c cols IH]; [done|].
  rewrite fmap_cons, !filter_cons.
  destruct (decide (matches_niscode c)) as [Hc|Hc].
  - rewrite decide_True by (by apply lower_label_matches). simpl.
    by rewrite IH.
  - rewrite decide_False by (by rewrite <- lower_label_matches). done.
Qed.

Lemma renamed_lowered_columns data i old s :
  data !! i = Some (old, s) → matches_niscode old →
  lower_label <$> columns (<[i := (LStr "niscode", s)]> data)
  = lower_label <$> columns data.
Proof.
  intros Hi Hold%lower_label_matches. unfold columns.
  rewrite !list_fmap_insert. simpl.
  apply list_insert_id. rewrite !list_lookup_fmap, Hi. simpl.
  by rewrite Hold.
Qed.

Lemma renamed_n_matches data i old s :
  data !! i = Some (old, s) → matches_niscode old →
  n_matches (<[i := (LStr "niscode", s)]> data) = n_matches data.
Proof.
  intros Hi Hold.
  by rewrite !n_matches_lowered, (renamed_lowered_columns _ _ old).
Qed.

Lemma renamed_all_str data i s :
  all_str data → all_str (<[i := (LStr "niscode", s)]> data).
Proof.
  unfold all_str, columns. intros Hstr. rewrite list_fmap_insert.
  by apply Forall_insert.
Qed.

Lemma insert_label_values data i old s (new : label) :
  data !! i = Some (old, s) → (<[i := (new, s)]> data).*2 = data.*2.
Proof.
  intros Hi. rewrite list_fmap_insert. simpl.
  apply list_insert_id. by rewrite list_lookup_fmap, Hi.
Qed.

(** Labels that do not match "niscode" all pass the test of
    [data_column_options]. *)
Lemma no_match_all_offered cols :
  filter matches_niscode cols = [] →
  filter (λ column, column ∉ [LStr "niscode"]) cols = cols.
Proof.
  induction cols as [|c cols IH]; [done|].
  rewrite !filter_cons.
  destruct (decide (matches_niscode c)) as [|Hc]; [done|].
  intros Hrest. rewrite decide_True; [by rewrite IH|].
  intros ->%list_elem_of_singleton. by destruct Hc.
Qed.

Lemma int64_values s :
  series_dtype s = int64 → Forall (λ c, is_int64 c = true) (series_values s).
Proof.
  destruct s as [v|v|v|v|v]; try done. intros _. simpl.
  apply Forall_fmap. by apply Forall_true.
Qed.
End frame_facts.

(* ===================================================================== *)
(** ** What [validate_data] does, case by case *)
(* ===================================================================== *)

Section validate_cases.
Implicit Types (data : DataFrame) (s : Series).

Lemma validate_data_short data :
  length data < 2 →
  validate_data data = (data, Raised InsufficientColumns).
Proof.
  intros Hlen. unfold validate_data, bind, get, columns.
  rewrite length_fmap.
  by destruct (Nat.ltb_spec (length data) 2); [|lia].
Qed.

(** With at least two columns and a label that is not a string, the scan
    raises and the frame is left alone. *)
Lemma validate_data_non_str data type_name :
  (2 ≤ length data)%nat → first_non_str (columns data) = Some type_name →
  validate_data data = (data, Raised (NoLower type_name)).
Proof.
  intros Hlen Hfirst. unfold validate_data, bind, get, lift.
  unfold columns at 1. rewrite length_fmap.
  destruct (Nat.ltb_spec (length data) 2); [lia|].
  unfold nis_code_positions, Py.enumerate.
  by rewrite nis_code_scan_spec, Hfirst.
Qed.

Lemma validate_data_ambiguous data :
  (2 ≤ length data)%nat → all_str data → 1 < n_matches data →
  validate_data data = (data, Raised AmbiguousJoinKey).
Proof.
  intros Hlen Hstr Hn. unfold validate_data, bind, get, lift.
  rewrite nis_code_positions_all_str, positions_length by done.
  unfold columns at 1. rewrite length_fmap.
  destruct (Nat.ltb_spec (length data) 2); [lia|].
  by destruct (Nat.ltb_spec 1 (n_matches data)); [|lia].
Qed.

Lemma validate_data_missing data :
  (2 ≤ length data)%nat → all_str data → n_matches data = 0 →
  validate_data data = (data, Raised MissingJoinKey).
Proof.
  intros Hlen Hstr Hn. unfold validate_data, bind, get, lift.
  rewrite nis_code_positions_all_str, positions_length, Hn by done.
  unfold columns at 1. rewrite length_fmap.
  by destruct (Nat.ltb_spec (length data) 2); [lia|].
Qed.

(** With at least two columns, all labels strings and exactly one matching
    label, at position [i]: the label is replaced, and the call ends
    according to the dtype of that column. *)
Lemma validate_data_unique data i old s :
  (2 ≤ length data)%nat → all_str data → n_matches data = 1 →
  data !! i = Some (old, s) → matches_niscode old →
  validate_data data
  = (<[i := (LStr "niscode", s)]> data,
     if dtype_eqb (series_dtype s) int64 then Returned ()
     else Raised InvalidJoinKeyType).
Proof.
  intros Hlen Hstr Hone Hi Hold.
  pose proof (columns_lookup _ _ _ _ Hi) as Hci.
  pose proof (lookup_lt_Some _ _ _ Hci) as Hlt.
  unfold validate_data, bind, get, lift, put.
  rewrite nis_code_positions_all_str by done.
  rewrite positions_length, Hone.
  rewrite (positions_unique matches_niscode _ i old) by done.
  replace (length (columns data) <? 2)%nat with false
    by (symmetry; apply Nat.ltb_ge; unfold columns;
        by rewrite length_fmap).
  simpl. unfold setitem, set_columns.
  replace (i <? length (columns data))%nat with true
    by (symmetry; by apply Nat.ltb_lt).
  rewrite length_insert. unfold columns at 1. rewrite length_fmap.
  rewrite Nat.eqb_refl. unfold columns.
  rewrite (zip_insert_label _ _ old s) by done.
  rewrite (attr_dtype_renamed _ _ old) by done.
  by destruct (dtype_eqb (series_dtype s) int64).
Qed.

(** Every call of [validate_data] falls in one of five cases. *)
Lemma validate_data_cases data :
  (length data < 2
   ∧ validate_data data = (data, Raised InsufficientColumns))
  ∨ ((2 ≤ length data)%nat ∧ ¬ all_str data
     ∧ ∃ type_name, validate_data data = (data, Raised (NoLower type_name)))
  ∨ ((2 ≤ length data)%nat ∧ all_str data ∧ n_matches data = 0
     ∧ validate_data data = (data, Raised MissingJoinKey))
  ∨ ((2 ≤ length data)%nat ∧ all_str data ∧ 1 < n_matches data
     ∧ validate_data data = (data, Raised AmbiguousJoinKey))
  ∨ ((2 ≤ length data)%nat ∧ all_str data ∧ n_matches data = 1
     ∧ ∃ i old s,
         data !! i = Some (old, s) ∧ matches_niscode old
         ∧ validate_data data
           = (<[i := (LStr "niscode", s)]> data,
              if dtype_eqb (series_dtype s) int64 then Returned ()
              else Raised InvalidJoinKeyType)).
Proof.
  destruct (decide (length data < 2)) as [Hshort|Hlen].
  { left. eauto using validate_data_short. }
  right. assert (2 ≤ length data)%nat as Hge by lia. clear Hlen.
  destruct (first_non_str (columns data)) as [ty|] eqn:Hfirst.
  { left. split; [done|]. split.
    - intros Hstr%first_non_str_None. congruence.
    - exists ty. by apply validate_data_non_str. }
  right. apply first_non_str_None in Hfirst.
  destruct (n_matches data) as [|[|n]] eqn:Hn.
  - left. eauto using validate_data_missing.
  - right. right. repeat split; [done..|].
    destruct (filter_one_witness matches_niscode (columns data) Hn)
      as (i & old & Hi & Hold).
    unfold columns in Hi. rewrite list_lookup_fmap in Hi.
    destruct (data !! i) as [[old' s]|] eqn:Hdi; simplify_eq/=.
    exists i. do 2 eexists. split; [exact Hdi|]. split; [done|].
    by eapply validate_data_unique.
  - right. left. repeat split; [done | done | lia |].
    apply validate_data_ambiguous; [done | done | lia].
Qed.
End validate_cases.
(* ===================================================================== *)
(** ** Schema validator: the properties *)
(* ===================================================================== *)

(** C1, as stated, fails on a table read from a spreadsheet whose second
    header cell holds a number: it has two columns and no label matches
    "niscode", yet [validate_data] raises the [AttributeError] of
    [lower], not [MissingJoinKey]. *)
Lemma year_header_not_missing_key :
  length (columns year_header_table) = 2
  ∧ n_matches year_header_table = 0
  ∧ result_of year_header_table = Raised (NoLower "int")
  ∧ result_of year_header_table ≠ Raised MissingJoinKey.
Proof. repeat split; done. Qed.

(** C1, amended.  [validate_data] ends with [InsufficientColumns] exactly
    when the table has fewer than two columns, whatever its labels are
    (the count is checked before the labels are scanned); with
    [MissingJoinKey] exactly when it has at least two columns, all labels
    are strings and none matches "niscode" when case is ignored; and with
    [AmbiguousJoinKey] exactly when it has at least two columns, all labels
    are strings and more than one matches. *)
Theorem validate_data_structural_errors (data : DataFrame) :
  (result_of data = Raised InsufficientColumns
   ↔ length (columns data) < 2)
  ∧ (result_of data = Raised MissingJoinKey
     ↔ (2 ≤ length (columns data))%nat ∧ all_str data
       ∧ n_matches data = 0)
  ∧ (result_of data = Raised AmbiguousJoinKey
     ↔ (2 ≤ length (columns data))%nat ∧ all_str data
       ∧ 1 < n_matches data).
Proof.
  unfold result_of, columns at 1 2 3. rewrite length_fmap.
  destruct (validate_data_cases data)
    as [[Hlen ->]|[(Hlen & Hstr & ty & ->)|[(Hlen & Hstr & Hn & ->)
        |[(Hlen & Hstr & Hn & ->)
        |(Hlen & Hstr & Hn & i & old & s & _ & _ & ->)]]]]; simpl;
    (split; [|split]); (split; [intros Heq | intros Hcond]);
    try done; try lia; try (by destruct Hcond as (_ & ? & _));
    by destruct (dtype_eqb (series_dtype s) int64).
Qed.

(** C2, as stated, fails on a table whose only column is the join key: one
    label matches, the call ends with [InsufficientColumns], and the label
    is still "NisCode". *)
Lemma single_column_not_renamed :
  n_matches single_column_table = 1
  ∧ single_column_table !! 0 = Some (LStr "NisCode", Int64Series [1000%Z])
  ∧ Py.lower "NisCode" = "niscode"
  ∧ result_of single_column_table = Raised InsufficientColumns
  ∧ columns (frame_after single_column_table) = [LStr "NisCode"]
  ∧ frame_after single_column_table !! 0
    ≠ Some (LStr "niscode", Int64Series [1000%Z]).
Proof. repeat split; done. Qed.

(** C2, amended.  For a table with at least two columns, all of whose
    labels are strings and exactly one of whose labels matches "niscode"
    when case is ignored, say at position [i]: after [validate_data] the
    column at position [i] is labelled "niscode" and holds the same values,
    every other position holds the column and label it held before, and no
    column's values have changed. *)
Theorem validate_data_renames (data : DataFrame) (i : nat) (old : string)
    (s : Series) :
  (2 ≤ length (columns data))%nat → all_str data → n_matches data = 1 →
  data !! i = Some (LStr old, s) → Py.lower old = "niscode" →
  frame_after data !! i = Some (LStr "niscode", s)
  ∧ (∀ j, j ≠ i → frame_after data !! j = data !! j)
  ∧ columns (frame_after data) = <[i := LStr "niscode"]> (columns data)
  ∧ (frame_after data).*2 = data.*2
  ∧ length (frame_after data) = length data.
Proof.
  unfold columns at 1. rewrite length_fmap. intros Hlen Hstr Hone Hi Hold.
  unfold frame_after.
  rewrite (validate_data_unique data i (LStr old) s) by done. simpl.
  pose proof (lookup_lt_Some _ _ _ Hi) as Hlt.
  split; [by apply list_lookup_insert_eq|].
  split; [intros j Hj; by apply list_lookup_insert_ne|].
  split; [unfold columns; by rewrite list_fmap_insert|].
  split; [by eapply insert_label_values | apply length_insert].
Qed.

Lemma validate_data_renames_witness :
  frame_after table1 !! 0 = Some (LStr "niscode", Int64Series [1000%Z])
  ∧ (∀ j, j ≠ 0 → frame_after table1 !! j = table1 !! j)
  ∧ columns (frame_after table1)
    = <[0 := LStr "niscode"]> (columns table1)
  ∧ (frame_after table1).*2 = table1.*2
  ∧ length (frame_after table1) = length table1.
Proof.
  apply (validate_data_renames table1 0 "NisCode" (Int64Series [1000%Z]));
    [simpl; lia | repeat constructor | reflexivity | reflexivity
    | reflexivity].
Defined.

(** C3.  For a table that passes the column-count check and the scan for
    the join key (at least two columns, every label a string, exactly one
    matching label, at position [i]): the column that [validate_data]
    labels "niscode" is that column, the call ends with
    [InvalidJoinKeyType] exactly when the dtype of the column is not
    [int64], it returns normally exactly when the dtype is [int64], and it
    ends with [InvalidJoinKeyType] whenever some value of the column is not
    a 64-bit integer. *)
Theorem validate_data_join_key_type (data : DataFrame) (i : nat)
    (old : string) (s : Series) :
  (2 ≤ length (columns data))%nat → all_str data → n_matches data = 1 →
  data !! i = Some (LStr old, s) → Py.lower old = "niscode" →
  frame_after data !! i = Some (LStr "niscode", s)
  ∧ (result_of data = Raised InvalidJoinKeyType ↔ series_dtype s ≠ int64)
  ∧ (result_of data = Returned () ↔ series_dtype s = int64)
  ∧ ((∃ c, c ∈ series_values s ∧ is_int64 c = false) →
     result_of data = Raised InvalidJoinKeyType).
Proof.
  unfold columns. rewrite length_fmap. intros Hlen Hstr Hone Hi Hold.
  unfold frame_after, result_of.
  rewrite (validate_data_unique data i (LStr old) s) by done. simpl.
  split; [apply list_lookup_insert_eq; by eapply lookup_lt_Some|].
  destruct s as [v|v|v|v|v]; simpl; repeat split; try done.
  intros (c & Hc & Hnot). apply list_elem_of_fmap in Hc as (z & -> & _).
  discriminate.
Qed.

Lemma validate_data_join_key_type_witness :
  frame_after text_key_table !! 0
  = Some (LStr "niscode", ObjectSeries [Text "1000"])
  ∧ (result_of text_key_table = Raised InvalidJoinKeyType
     ↔ series_dtype (ObjectSeries [Text "1000"]) ≠ int64)
  ∧ (result_of text_key_table = Returned ()
     ↔ series_dtype (ObjectSeries [Text "1000"]) = int64)
  ∧ ((∃ c, c ∈ series_values (ObjectSeries [Text "1000"])
           ∧ is_int64 c = false) →
     result_of text_key_table = Raised InvalidJoinKeyType).
Proof.
  apply (validate_data_join_key_type text_key_table 0 "NISCODE"
           (ObjectSeries [Text "1000"]));
    [simpl; lia | repeat constructor | reflexivity | reflexivity
    | reflexivity].
Defined.

(** C4, as stated, fails on a table whose join key is a float column: the
    call ends with [InvalidJoinKeyType] and the caller's table has its
    first label replaced. *)
Lemma float_key_renamed_then_rejected :
  result_of float_key_table = Raised InvalidJoinKeyType
  ∧ columns float_key_table = [LStr "NisCode"; LStr "Value"]
  ∧ columns (frame_after float_key_table) = [LStr "niscode"; LStr "Value"]
  ∧ frame_after float_key_table ≠ float_key_table.
Proof. repeat split; done. Qed.

(** C4, amended.  When [validate_data] raises, no column's values have
    changed.  With [InsufficientColumns], [MissingJoinKey] or
    [AmbiguousJoinKey] the table is the one the caller passed.  With
    [InvalidJoinKeyType] the table is the caller's with the label of the
    one matching column replaced by "niscode".  The only other error is the
    [AttributeError] of a label that is not a string, and it leaves the
    table as the caller passed it. *)
Theorem validate_data_failure_state (data : DataFrame) (e : exn) :
  result_of data = Raised e →
  (frame_after data).*2 = data.*2
  ∧ ((e = InsufficientColumns ∨ e = MissingJoinKey ∨ e = AmbiguousJoinKey)
     ∧ frame_after data = data
     ∨ e = InvalidJoinKeyType
       ∧ (∃ i old s,
            data !! i = Some (LStr old, s) ∧ Py.lower old = "niscode"
            ∧ frame_after data = <[i := (LStr "niscode", s)]> data)
     ∨ (∃ type_name, e = NoLower type_name) ∧ frame_after data = data).
Proof.
  unfold result_of, frame_after.
  destruct (validate_data_cases data)
    as [[Hlen ->]|[(Hlen & Hstr & ty & ->)|[(Hlen & Hstr & Hn & ->)
        |[(Hlen & Hstr & Hn & ->)
        |(Hlen & Hstr & Hn & i & old & s & Hi & Hold & ->)]]]]; simpl;
    intros He; simplify_eq.
  - split; [done|]. left. split; [by left | done].
  - split; [done|]. right. right. split; [by exists ty | done].
  - split; [done|]. left. split; [right; by left | done].
  - split; [done|]. left. split; [right; by right | done].
  - destruct (dtype_eqb (series_dtype s) int64); [done|]. simplify_eq.
    split; [by eapply insert_label_values|].
    right. left. split; [done|].
    destruct old as [t|]; [|done]. by exists i, t, s.
Qed.

Lemma validate_data_failure_state_witness :
  (frame_after float_key_table).*2 = float_key_table.*2
  ∧ ((InvalidJoinKeyType = InsufficientColumns
      ∨ InvalidJoinKeyType = MissingJoinKey
      ∨ InvalidJoinKeyType = AmbiguousJoinKey)
     ∧ frame_after float_key_table = float_key_table
     ∨ InvalidJoinKeyType = InvalidJoinKeyType
       ∧ (∃ i old s,
            float_key_table !! i = Some (LStr old, s)
            ∧ Py.lower old = "niscode"
            ∧ frame_after float_key_table
              = <[i := (LStr "niscode", s)]> float_key_table)
     ∨ (∃ type_name, InvalidJoinKeyType = NoLower type_name)
       ∧ frame_after float_key_table = float_key_table).
Proof.
  apply (validate_data_failure_state float_key_table InvalidJoinKeyType).
  reflexivity.
Defined.

(* ===================================================================== *)
(** ** Further properties of the validator *)
(* ===================================================================== *)

(** X1.  Validating a table a second time changes nothing: run on the
    table a first call left behind, [validate_data] leaves that table as
    it is and ends the way the first call ended. *)
Theorem validate_data_idempotent (data : DataFrame) :
  validate_data (frame_after data) = (frame_after data, result_of data).
Proof.
  unfold frame_after, result_of.
  destruct (validate_data_cases data)
    as [[Hlen Hv]|[(Hlen & Hstr & ty & Hv)|[(Hlen & Hstr & Hn & Hv)
        |[(Hlen & Hstr & Hn & Hv)
        |(Hlen & Hstr & Hn & i & old & s & Hi & Hold & Hv)]]]];
    rewrite Hv; simpl; try done.
  pose proof (lookup_lt_Some _ _ _ Hi) as Hlt.
  rewrite (validate_data_unique _ i (LStr "niscode") s);
    [by rewrite list_insert_insert_eq | by rewrite length_insert
    | by apply renamed_all_str | | by apply list_lookup_insert_eq | done].
  by rewrite (renamed_n_matches _ _ old).
Qed.

(** X2.  Whatever the outcome, [validate_data] keeps the number of
    columns, every column's values and every label up to letter case. *)
Theorem validate_data_preserves_shape (data : DataFrame) :
  length (frame_after data) = length data
  ∧ (frame_after data).*2 = data.*2
  ∧ lower_label <$> columns (frame_after data)
    = lower_label <$> columns data
  ∧ n_matches (frame_after data) = n_matches data.
Proof.
  unfold frame_after.
  destruct (validate_data_cases data)
    as [[Hlen ->]|[(Hlen & Hstr & ty & ->)|[(Hlen & Hstr & Hn & ->)
        |[(Hlen & Hstr & Hn & ->)
        |(Hlen & Hstr & Hn & i & old & s & Hi & Hold & ->)]]]]; simpl;
    try done.
  split; [apply length_insert|].
  split; [by eapply insert_label_values|].
  split; [by eapply renamed_lowered_columns | by eapply renamed_n_matches].
Qed.

(** X3.  When [validate_data] returns normally, the table it leaves has
    at least two columns, all labelled by strings, and exactly one column
    labelled "niscode"; that column has dtype [int64], all its values are
    64-bit integers, no other label matches "niscode" even when case is
    ignored, and the attribute [data.niscode] is that column. *)
Theorem validate_data_success_invariant (data : DataFrame) :
  result_of data = Returned () →
  (2 ≤ length (frame_after data))%nat
  ∧ all_str (frame_after data)
  ∧ ∃ i s,
      frame_after data !! i = Some (LStr "niscode", s)
      ∧ series_dtype s = int64
      ∧ Forall (λ c, is_int64 c = true) (series_values s)
      ∧ (∀ j l, columns (frame_after data) !! j = Some l →
                matches_niscode l → j = i)
      ∧ filter (λ c : label * Series, c.1 = LStr "niscode")
          (frame_after data)
        = [(LStr "niscode", s)]
      ∧ attr_dtype (frame_after data) "niscode" = Returned int64.
Proof.
  unfold result_of, frame_after.
  destruct (validate_data_cases data)
    as [[Hlen ->]|[(Hlen & Hstr & ty & ->)|[(Hlen & Hstr & Hn & ->)
        |[(Hlen & Hstr & Hn & ->)
        |(Hlen & Hstr & Hn & i & old & s & Hi & Hold & ->)]]]]; simpl;
    try done.
  destruct (dtype_eqb (series_dtype s) int64) eqn:Hdt; [|done].
  intros _.
  pose proof (renamed_n_matches data i old s Hi Hold) as Hn'.
  rewrite Hn in Hn'.
  assert (series_dtype s = int64) as Hs by (by destruct s).
  pose proof (lookup_lt_Some _ _ _ Hi) as Hlt.
  assert (<[i := (LStr "niscode", s)]> data !! i
          = Some (LStr "niscode", s)) as Hi'
    by (by apply list_lookup_insert_eq).
  rewrite length_insert.
  split; [lia|]. split; [by apply renamed_all_str|]. exists i, s.
  split; [done|]. split; [done|]. split; [by apply int64_values|].
  split.
  { intros j l Hj Hl.
    eapply (filter_one_unique matches_niscode);
      [exact Hn' | by eapply columns_lookup | done | exact Hj | done]. }
  pose proof (attr_dtype_renamed data i old s Hn Hi Hold) as Hattr.
  split; [|by rewrite Hattr, Hs].
  unfold n_matches in Hn.
  destruct (filter_one_split _ _ i old Hn (columns_lookup _ _ _ _ Hi) Hold)
    as [Hbefore Hafter].
  unfold columns in Hbefore, Hafter.
  rewrite <- fmap_take in Hbefore. rewrite <- fmap_drop in Hafter.
  apply no_match_no_label in Hbefore, Hafter.
  rewrite insert_take_drop by done.
  rewrite filter_app, filter_cons_True by done.
  by rewrite Hbefore, Hafter.
Qed.

Lemma validate_data_success_invariant_witness :
  (2 ≤ length (frame_after table1))%nat
  ∧ all_str (frame_after table1)
  ∧ ∃ i s,
      frame_after table1 !! i = Some (LStr "niscode", s)
      ∧ series_dtype s = int64
      ∧ Forall (λ c, is_int64 c = true) (series_values s)
      ∧ (∀ j l, columns (frame_after table1) !! j = Some l →
                matches_niscode l → j = i)
      ∧ filter (λ c : label * Series, c.1 = LStr "niscode")
          (frame_after table1)
        = [(LStr "niscode", s)]
      ∧ attr_dtype (frame_after table1) "niscode" = Returned int64.
Proof. apply (validate_data_success_invariant table1). reflexivity. Defined.

(** X4.  [validate_data] changes the caller's table exactly when the table
    has at least two columns, every label is a string, exactly one label
    matches "niscode" when case is ignored, and no label is spelled
    "niscode" already. *)
Theorem validate_data_modifies_iff (data : DataFrame) :
  frame_after data ≠ data
  ↔ (2 ≤ length data)%nat ∧ all_str data ∧ n_matches data = 1
    ∧ LStr "niscode" ∉ columns data.
Proof.
  unfold frame_after.
  destruct (validate_data_cases data)
    as [[Hlen ->]|[(Hlen & Hstr & ty & ->)|[(Hlen & Hstr & Hn & ->)
        |[(Hlen & Hstr & Hn & ->)
        |(Hlen & Hstr & Hn & i & old & s & Hi & Hold & ->)]]]]; simpl.
  1-4: split; [done|]; intros (? & ? & ? & ?); first [lia | done].
  pose proof (columns_lookup _ _ _ _ Hi) as Hci.
  destruct (decide (old = LStr "niscode")) as [->|Hne].
  - rewrite list_insert_id by done. split; [done|].
    intros (_ & _ & _ & Hnot). destruct Hnot.
    apply list_elem_of_lookup. by exists i.
  - split.
    + intros _. split; [done|]. split; [done|]. split; [done|].
      intros [j Hj]%list_elem_of_lookup.
      assert (j = i) as ->
        by (eapply (filter_one_unique matches_niscode);
            [exact Hn | exact Hci | done | exact Hj | done]).
      congruence.
    + intros _ Heq.
      assert (<[i := (LStr "niscode", s)]> data !! i
              = Some (LStr "niscode", s)) as Hi'
        by (apply list_lookup_insert_eq; by eapply lookup_lt_Some).
      rewrite Heq in Hi'. congruence.
Qed.

(** X5.  The outcome of [validate_data] depends on the labels and on the
    dtypes of the columns only: two tables with the same labels and the
    same column dtypes end the same way, whatever values they hold. *)
Theorem validate_data_ignores_values (data data' : DataFrame) :
  columns data = columns data' →
  (series_dtype <$> data.*2) = (series_dtype <$> data'.*2) →
  result_of data = result_of data'.
Proof.
  intros Hcols Hdt.
  assert (length data = length data') as Hlen'.
  { apply (f_equal length) in Hcols. unfold columns in Hcols.
    by rewrite !length_fmap in Hcols. }
  assert (n_matches data = n_matches data') as Hn'
    by (unfold n_matches; by rewrite Hcols).
  assert (all_str data → all_str data') as Hstr'
    by (unfold all_str; by rewrite Hcols).
  unfold result_of.
  destruct (validate_data_cases data)
    as [[Hlen ->]|[(Hlen & Hstr & ty & Hv)|[(Hlen & Hstr & Hn & ->)
        |[(Hlen & Hstr & Hn & ->)
        |(Hlen & Hstr & Hn & i & old & s & Hi & Hold & ->)]]]]; simpl.
  - rewrite validate_data_short; [done | lia].
  - destruct (first_non_str (columns data)) as [ty'|] eqn:Hfirst.
    2:{ by apply first_non_str_None in Hfirst. }
    rewrite (validate_data_non_str data ty') by done.
    rewrite (validate_data_non_str data' ty'); [done | lia | congruence].
  - rewrite validate_data_missing; [done | lia | auto | congruence].
  - rewrite validate_data_ambiguous; [done | lia | auto | lia].
  - destruct (data' !! i) as [[old' s']|] eqn:Hi'.
    2:{ apply lookup_ge_None in Hi'. apply lookup_lt_Some in Hi. lia. }
    assert (old' = old) as ->.
    { apply (f_equal (λ l, l !! i)) in Hcols. unfold columns in Hcols.
      rewrite !list_lookup_fmap, Hi, Hi' in Hcols. by simplify_eq/=. }
    assert (series_dtype s' = series_dtype s) as Hs.
    { apply (f_equal (λ l, l !! i)) in Hdt.
      rewrite !list_lookup_fmap, Hi, Hi' in Hdt. by simplify_eq/=. }
    rewrite (validate_data_unique data' i old s');
      [by rewrite Hs | lia | auto | congruence | done | done].
Qed.

Lemma validate_data_ignores_values_witness :
  result_of table1 = result_of table1_other_values.
Proof.
  apply (validate_data_ignores_values table1 table1_other_values);
    reflexivity.
Defined.

(* ===================================================================== *)
(** ** Properties of the application *)
(* ===================================================================== *)

(** X6.  After a call of [validate_data] that returns normally, the labels
    the application offers for the data column and for the tooltips are
    the labels of the table as it was read, in order and spelled as they
    were, with the join-key label taken out: none is "niscode", and there
    is at least one. *)
Theorem options_after_validation (data : DataFrame) :
  result_of data = Returned () →
  ∃ i key,
    columns data !! i = Some (LStr key) ∧ Py.lower key = "niscode"
    ∧ data_column_options (frame_after data) = delete i (columns data)
    ∧ (LStr "niscode" ∉ data_column_options (frame_after data))
    ∧ (length (data_column_options (frame_after data))
       = length (columns data) - 1)%nat
    ∧ data_column_options (frame_after data) ≠ [].
Proof.
  unfold result_of, frame_after.
  destruct (validate_data_cases data)
    as [[Hlen ->]|[(Hlen & Hstr & ty & ->)|[(Hlen & Hstr & Hn & ->)
        |[(Hlen & Hstr & Hn & ->)
        |(Hlen & Hstr & Hn & i & old & s & Hi & Hold & ->)]]]]; simpl;
    try done.
  intros _. pose proof (columns_lookup _ _ _ _ Hi) as Hci.
  pose proof (lookup_lt_Some _ _ _ Hci) as Hlt.
  assert (data_column_options (<[i := (LStr "niscode", s)]> data)
          = delete i (columns data)) as Hopts.
  { unfold n_matches in Hn.
    destruct (filter_one_split _ _ i old Hn Hci Hold) as [Hbefore Hafter].
    unfold data_column_options, columns at 1.
    rewrite list_fmap_insert. fold (columns data). simpl.
    rewrite insert_take_drop, filter_app, filter_cons_False by
      (done || by (intros Hnot; apply Hnot, list_elem_of_singleton)).
    rewrite !no_match_all_offered by done.
    by rewrite delete_take_drop. }
  destruct old as [key|]; [|done].
  exists i, key. rewrite Hopts.
  assert (length (delete i (columns data)) = length (columns data) - 1)
    as Hlen' by (rewrite length_delete; [lia | by eexists]).
  split; [done|]. split; [done|]. split; [done|].
  split.
  { rewrite <- Hopts. unfold data_column_options.
    intros [Hnot _]%list_elem_of_filter. apply Hnot. by left. }
  split; [done|].
  intros Hnil. rewrite Hnil in Hlen'. unfold columns in Hlen'.
  rewrite length_fmap in Hlen'. simpl in Hlen'. lia.
Qed.

Lemma options_after_validation_witness :
  ∃ i key,
    columns table1 !! i = Some (LStr key) ∧ Py.lower key = "niscode"
    ∧ data_column_options (frame_after table1) = delete i (columns table1)
    ∧ (LStr "niscode" ∉ data_column_options (frame_after table1))
    ∧ (length (data_column_options (frame_after table1))
       = length (columns table1) - 1)%nat
    ∧ data_column_options (frame_after table1) ≠ [].
Proof. apply (options_after_validation table1). reflexivity. Defined.
(* ===================================================================== *)
(** ** Tabular reader: the properties *)
(* ===================================================================== *)

Section reader_properties.
Variable pd_read_csv :
  source → option string → option string → outcome DataFrame.
Variable pd_read_excel : source → outcome DataFrame.

(** C8.  Both entry points choose the parser by the ending of the name,
    case ignored, and by nothing else.  A name ending in ".csv" goes to the
    delimited-text parser with the encoding and delimiter supplied; a name
    ending in ".xlsx" goes to the spreadsheet parser, which is given neither;
    any other name raises the [ValueError] for an unknown file type, whose
    message contains the name.  [read_data] hands the parser the name as a
    path, [read_file] hands it the bytes. *)
Theorem reader_dispatch (name : string) (byte_stream : list Byte.byte)
    (encoding delimiter : option string) :
  (has_extension ".csv" name →
   read_data pd_read_csv pd_read_excel name encoding delimiter
   = pd_read_csv (Path name) encoding delimiter
   ∧ read_file pd_read_csv pd_read_excel name byte_stream encoding delimiter
     = pd_read_csv (BytesIO byte_stream) encoding delimiter)
  ∧ (has_extension ".xlsx" name →
     read_data pd_read_csv pd_read_excel name encoding delimiter
     = pd_read_excel (Path name)
     ∧ read_file pd_read_csv pd_read_excel name byte_stream encoding
         delimiter
       = pd_read_excel (BytesIO byte_stream))
  ∧ (¬ has_extension ".csv" name → ¬ has_extension ".xlsx" name →
     read_data pd_read_csv pd_read_excel name encoding delimiter
     = Raised (UnsupportedFormat name)
     ∧ read_file pd_read_csv pd_read_excel name byte_stream encoding
         delimiter
       = Raised (UnsupportedFormat name))
  ∧ (∃ msg, UnsupportedFormat name = ValueError msg ∧ mentions msg name).
Proof.
  unfold read_data, read_file.
  rewrite <- !PyFacts.endswith_lower_iff.
  split; [|split; [|split]].
  - by intros ->.
  - intros Hx. by rewrite (PyFacts.csv_xlsx_disjoint _ Hx), Hx.
  - intros Hc%not_true_is_false Hx%not_true_is_false. by rewrite Hc, Hx.
  - apply PyFacts.UnsupportedFormat_mentions.
Qed.
End reader_properties.

(* ===================================================================== *)
(** ** Facts about the plot builder *)
(* ===================================================================== *)

Lemma obind_Returned {X Y} (m : outcome X) (k : X → outcome Y) (y : Y) :
  obind m k = Returned y → ∃ x, m = Returned x ∧ k x = Returned y.
Proof. destruct m as [x|e]; simpl; [eauto | done]. Qed.

Lemma obind_Raised {X Y} (m : outcome X) (k : X → outcome Y) (e : exn) :
  obind m k = Raised e →
  m = Raised e ∨ ∃ x, m = Returned x ∧ k x = Raised e.
Proof. destruct m as [x|e']; simpl; [eauto | intros [= ->]; by left]. Qed.

Lemma checked_Returned {X} (check : X → outcome unit) (x y : X) :
  checked check x = Returned y → y = x ∧ check x = Returned ().
Proof.
  unfold checked. destruct (check x) as [[]|e]; simpl; [|done].
  by intros [= ->].
Qed.

Lemma checked_Raised {X} (check : X → outcome unit) (x : X) (e : exn) :
  checked check x = Raised e → check x = Raised e.
Proof.
  unfold checked. destruct (check x) as [[]|e']; simpl; [done|].
  by intros [= ->].
Qed.

Ltac bind_returned H :=
  repeat
    (let x := fresh "x" in
     let Hx := fresh "Hx" in
     apply obind_Returned in H as (x & Hx & H);
     try (apply checked_Returned in Hx as [-> Hx])).

Section create_plot_facts.
Context (A : Altair) (topo_data : TopoData) (data : DataFrame)
        (column_name data_type : string)
        (tooltip_columns stroke strokeWidth legend_title scheme
           missing_color : pyval).

(** A specification the builder returns: the tooltip columns were iterated
    twice, once for the lookup and once for the tooltip, the two layers are
    the ones the calls assemble, and Altair accepted the lookup and the
    mark of the outline. *)
Lemma create_plot_Returned (spec : LayerChart) :
  create_plot A topo_data data column_name data_type tooltip_columns
              stroke strokeWidth legend_title scheme missing_color
  = Returned spec →
  ∃ fetched rest cols rest',
    py_iter tooltip_columns = Returned (fetched, rest)
    ∧ py_iter rest = Returned (cols, rest')
    ∧ spec
      = layered
          (outline_layer topo_data stroke strokeWidth missing_color)
          (data_layer topo_data data column_name data_type
             (if is_None legend_title then PyStr column_name
              else legend_title)
             scheme
             ((λ column, column +:+ ":N") <$> cols)
             (column_name :: fetched))
    ∧ check_lookup_data A
        (mkLookupData data "niscode" (column_name :: fetched))
      = Returned ()
    ∧ check_chart A
        (with_mark (Some stroke) (Some strokeWidth) (new_chart topo_data))
      = Returned ().
Proof.
  unfold create_plot, alt_Chart, mark_geoshape, alt_Legend, alt_Scale,
    alt_Color, encode, alt_LookupData, transform_lookup, properties,
    layer_add, alt_value.
  intros H. apply obind_Returned in H as ([lookup_columns tc'] & Hext & H).
  simpl in H. bind_returned H. injection H as <-.
  match goal with
  | Hiter : py_iter tc' = Returned ?p |- _ =>
      destruct p as [cols rest']; simpl in *;
      destruct tooltip_columns as [|t|q|l|l]; simpl in Hext, Hiter;
      simplify_eq/=; do 4 eexists; repeat split; eauto
  end.
Qed.

(** An error of the builder: the [TypeError] of tooltip columns that
    cannot be iterated, or an error of Altair. *)
Lemma create_plot_Raised (e : exn) :
  create_plot A topo_data data column_name data_type tooltip_columns
              stroke strokeWidth legend_title scheme missing_color
  = Raised e →
  py_iter tooltip_columns = Raised e ∨ altair_raised A e.
Proof.
  unfold create_plot, alt_Chart, mark_geoshape, alt_Legend, alt_Scale,
    alt_Color, encode, alt_LookupData, transform_lookup, properties,
    layer_add, alt_value, altair_raised.
  intros H.
  apply obind_Raised in H as [H|([lookup_columns tc'] & Hext & H)].
  { left. destruct tooltip_columns; simplify_eq/=; done. }
  simpl in H.
  repeat
    (let x := fresh "x" in
     let Hx := fresh "Hx" in
     apply obind_Raised in H as [H|(x & Hx & H)];
     [ first [ apply checked_Raised in H; by eauto 12
             | left; destruct tooltip_columns; simplify_eq/=; done ]
     | try (apply checked_Returned in Hx as [-> Hx]) ]).
  apply checked_Raised in H. by eauto 12.
Qed.

End create_plot_facts.

(** With [None] for the tooltip columns the builder never returns. *)
Lemma create_plot_None_raises (A : Altair) (topo_data : TopoData)
    (data : DataFrame) (column_name data_type : string)
    (stroke strokeWidth legend_title scheme missing_color : pyval) :
  ∃ e, create_plot A topo_data data column_name data_type PyNone
                   stroke strokeWidth legend_title scheme missing_color
       = Raised e.
Proof.
  destruct (create_plot A topo_data data column_name data_type PyNone
              stroke strokeWidth legend_title scheme missing_color)
    as [spec|e] eqn:Hplot; [|by exists e].
  apply create_plot_Returned in Hplot as (? & ? & ? & ? & Hiter & _).
  discriminate.
Qed.

Lemma endswith_nominal (column : string) :
  Py.endswith (column +:+ ":N") ":N" = true.
Proof. apply PyFacts.endswith_iff. by exists column. Qed.


(** With the checks of [lenient_altair], the builder returns for a small
    table and arguments of the expected types, and each convenience entry
    point called with its defaults raises. *)
Example create_plot_lenient :
  create_plot lenient_altair topo_municipalities table1 "Value" "Q"
              (PyList ["Name"]) PresetDefault.stroke
              PresetDefault.strokeWidth PresetDefault.legend_title
              PresetDefault.scheme PresetDefault.missing_color
  = Returned
      (layered
         (outline_layer topo_municipalities (PyStr "lightgrey")
            (PyFloat (1 # 2)) (PyStr "white"))
         (data_layer topo_municipalities table1 "Value" "Q" (PyStr "Value")
            (PyStr "reds") ["Name:N"] ["Value"; "Name"]))
  ∧ create_quantitative_plot lenient_altair topo_municipalities table1
      "Value" PresetDefault.stroke PresetDefault.strokeWidth
      PresetDefault.legend_title PresetDefault.scheme
      PresetDefault.missing_color
    = Raised (SchemaValidationError "None is not of type 'number'").
Proof. split; reflexivity. Qed.
(* ===================================================================== *)
(** ** Plot builder: the properties *)
(* ===================================================================== *)

Example scale_codes :
  scale_code "quantitative" = Some "Q" ∧ scale_code "nominal" = Some "N".
Proof. split; reflexivity. Qed.





(** C9.  Called with [tooltip_columns] at its default [None], the builder
    never returns a specification, whatever the other arguments are: it
    raises the [TypeError] of iterating [None], unless Altair has refused
    an object before; when Altair accepts the chart, the mark, the legend,
    the scale and the colour channel, which are built before the tooltip
    list, the error is that [TypeError].  The builder returns a
    specification only when the tooltip columns can be iterated. *)
Theorem create_plot_needs_tooltip_columns (A : Altair)
    (topo_data : TopoData) (data : DataFrame)
    (column_name data_type : string)
    (stroke strokeWidth legend_title scheme missing_color : pyval) :
  (∃ e,
     create_plot A topo_data data column_name data_type
                 Default.tooltip_columns stroke strokeWidth legend_title
                 scheme missing_color
     = Raised e
     ∧ (e = TypeError "'NoneType' object is not iterable"
        ∨ altair_raised A e))
  ∧ (check_chart A (new_chart topo_data) = Returned () →
     check_chart A (with_mark None None (new_chart topo_data))
     = Returned () →
     check_legend A (mkLegend (if is_None legend_title
                               then PyStr column_name else legend_title))
     = Returned () →
     check_scale A (mkScale scheme) = Returned () →
     check_color A (Color (column_name +:+ ":" +:+ data_type)
                      (mkLegend (if is_None legend_title
                                 then PyStr column_name else legend_title))
                      (mkScale scheme))
     = Returned () →
     create_plot A topo_data data column_name data_type
                 Default.tooltip_columns stroke strokeWidth legend_title
                 scheme missing_color
     = Raised (TypeError "'NoneType' object is not iterable"))
  ∧ (∀ tooltip_columns spec,
       create_plot A topo_data data column_name data_type tooltip_columns
                   stroke strokeWidth legend_title scheme missing_color
       = Returned spec →
       ∃ elements rest, py_iter tooltip_columns = Returned (elements, rest)).
Proof.
  split; [|split].
  - destruct (create_plot_None_raises A topo_data data column_name
                data_type stroke strokeWidth legend_title scheme
                missing_color) as [e He].
    exists e. split; [done|].
    apply create_plot_Raised in He as [Hiter|Halt]; [left | by right].
    simpl in Hiter. congruence.
  - intros Hchart Hmark Hlegend Hscale Hcolor.
    unfold create_plot, alt_Chart, mark_geoshape, alt_Legend, alt_Scale,
      alt_Color, checked, Default.tooltip_columns.
    cbn [obind is_None negb fst snd]. rewrite Hchart.
    cbn [obind]. rewrite Hmark.
    cbn [obind]. rewrite Hlegend.
    cbn [obind]. rewrite Hscale.
    cbn [obind]. rewrite Hcolor. reflexivity.
  - intros tooltip_columns spec
      (elements & rest & _ & _ & Hiter & _)%create_plot_Returned.
    eauto.
Qed.

(** C10.  In every specification the builder returns, the tooltip of the
    data layer lists the elements that iterating the tooltip columns gives
    when the tooltip is built, in order, each followed by ":N", the code
    of the nominal type; for a list these are its elements and for a
    string its characters.  The outline layer has no tooltip.  The scale
    code chosen for the colour and the table play no part in it. *)
Theorem tooltip_fields_are_nominal (A : Altair) (topo_data : TopoData)
    (data : DataFrame) (column_name data_type : string)
    (tooltip_columns stroke strokeWidth legend_title scheme
       missing_color : pyval) (spec : LayerChart) :
  create_plot A topo_data data column_name data_type tooltip_columns
              stroke strokeWidth legend_title scheme missing_color
  = Returned spec →
  ∃ fetched rest cols rest' outline colored,
    py_iter tooltip_columns = Returned (fetched, rest)
    ∧ py_iter rest = Returned (cols, rest')
    ∧ (∀ l, tooltip_columns = PyList l → cols = l)
    ∧ (∀ s, tooltip_columns = PyStr s → cols = Py.chars s)
    ∧ layer spec = [outline; colored]
    ∧ encoding_tooltip outline = None
    ∧ encoding_tooltip colored = Some ((λ column, column +:+ ":N") <$> cols)
    ∧ ∀ field, field ∈ (λ column, column +:+ ":N") <$> cols →
               Py.endswith field ":N" = true.
Proof.
  intros (fetched & rest & cols & rest' & Hf & Hc & -> & _)
    %create_plot_Returned.
  exists fetched, rest, cols, rest'. do 2 eexists.
  split; [done|]. split; [done|].
  split; [intros l ->; simpl in Hf; simplify_eq/=; done|].
  split; [intros s ->; simpl in Hf; simplify_eq/=; done|].
  split; [reflexivity|]. simpl. repeat split.
  intros field (column & -> & _)%list_elem_of_fmap.
  apply endswith_nominal.
Qed.

Lemma tooltip_fields_are_nominal_witness :
  ∃ fetched rest cols rest' outline colored,
    py_iter (PyList ["Name"; "Value"]) = Returned (fetched, rest)
    ∧ py_iter rest = Returned (cols, rest')
    ∧ (∀ l, PyList ["Name"; "Value"] = PyList l → cols = l)
    ∧ (∀ s, PyList ["Name"; "Value"] = PyStr s → cols = Py.chars s)
    ∧ layer
        (layered
           (outline_layer topo_municipalities Default.stroke
              Default.strokeWidth Default.missing_color)
           (data_layer topo_municipalities table1 "Value" "Q"
              (PyStr "Value") Default.scheme ["Name:N"; "Value:N"]
              ["Value"; "Name"; "Value"]))
      = [outline; colored]
    ∧ encoding_tooltip outline = None
    ∧ encoding_tooltip colored = Some ((λ column, column +:+ ":N") <$> cols)
    ∧ ∀ field, field ∈ (λ column, column +:+ ":N") <$> cols →
               Py.endswith field ":N" = true.
Proof.
  apply (tooltip_fields_are_nominal lenient_altair topo_municipalities
           table1 "Value" "Q" (PyList ["Name"; "Value"]) Default.stroke
           Default.strokeWidth Default.legend_title Default.scheme
           Default.missing_color).
  reflexivity.
Defined.

(* ===================================================================== *)
(** ** Further properties of the application and of the builder *)
(* ===================================================================== *)

(** X7.  In the application, after a call of [validate_data] that returns
    normally and with the data column and the tooltip names taken from the
    labels on offer, the call of the builder never raises the [TypeError]
    of tooltip columns that cannot be iterated: it raises only what Altair
    raises.  When it returns, the table has at most 5000 rows and the data
    layer looks up the chosen column followed by the tooltip names in the
    validated table.  Every field looked up is a label of that table other
    than the join key, and the join key "niscode" is a label of it. *)
Theorem main_plot_after_validation (A : Altair) (data : DataFrame)
    (column_name data_type : string) (tooltip_names : list string)
    (color_scheme missing_color : string) :
  result_of data = Returned () →
  LStr column_name ∈ data_column_options (frame_after data) →
  (∀ name, name ∈ tooltip_names →
           LStr name ∈ data_column_options (frame_after data)) →
  match main_create_plot A (frame_after data) column_name data_type
                         tooltip_names color_scheme missing_color
  with
  | Returned spec =>
      (n_rows (frame_after data) ≤ 5000)%Z
      ∧ ∃ outline colored,
          spec = mkLayerChart [outline; colored]
          ∧ transform colored
            = [mkLookup "properties.CODE_INS"
                        (mkLookupData (frame_after data) "niscode"
                                      (column_name :: tooltip_names))]
  | Raised e => altair_raised A e
  end
  ∧ (∀ field, field ∈ column_name :: tooltip_names →
              LStr field ∈ columns (frame_after data)
              ∧ field ≠ "niscode")
  ∧ LStr "niscode" ∈ columns (frame_after data).
Proof.
  intros Hok Hcol Htips. split; [|split].
  - unfold main_create_plot.
    destruct (create_plot A topo_municipalities (frame_after data)
                column_name data_type (PyList tooltip_names) Default.stroke
                Default.strokeWidth Default.legend_title
                (PyStr color_scheme) (PyStr missing_color))
      as [spec|e] eqn:Hplot.
    + apply create_plot_Returned in Hplot
        as (fetched & rest & cols & rest' & Hf & Hc & -> & Hld & _).
      simpl in Hf. injection Hf as <- <-. split.
      * destruct (Z.le_gt_cases (n_rows (frame_after data)) 5000)
          as [|Hbig]; [done|].
        destruct (max_rows A (mkLookupData (frame_after data) "niscode"
                                (column_name :: tooltip_names)))
          as [e He]; [simpl; lia | congruence].
      * do 2 eexists. by split; [reflexivity|].
    + by apply create_plot_Raised in Hplot as [Hiter|Halt].
  - intros field Hfield.
    assert (LStr field ∈ data_column_options (frame_after data)) as Hin.
    { apply elem_of_cons in Hfield as [->|Hfield]; [done|].
      by apply Htips. }
    apply list_elem_of_filter in Hin as [Hnot Hin]. split; [done|].
    intros ->. apply Hnot. by left.
  - revert Hok. unfold result_of, frame_after.
    destruct (validate_data_cases data)
      as [[Hlen ->]|[(Hlen & Hstr & ty & ->)|[(Hlen & Hstr & Hn & ->)
          |[(Hlen & Hstr & Hn & ->)
          |(Hlen & Hstr & Hn & i & old & s & Hi & Hold & ->)]]]]; simpl;
      try done.
    intros _. apply list_elem_of_lookup. exists i.
    eapply columns_lookup. apply list_lookup_insert_eq.
    by eapply lookup_lt_Some.
Qed.

Lemma main_plot_after_validation_witness :
  match main_create_plot lenient_altair (frame_after table1) "Value" "Q"
                         ["Name"] "reds" "white"
  with
  | Returned spec =>
      (n_rows (frame_after table1) ≤ 5000)%Z
      ∧ ∃ outline colored,
          spec = mkLayerChart [outline; colored]
          ∧ transform colored
            = [mkLookup "properties.CODE_INS"
                        (mkLookupData (frame_after table1) "niscode"
                                      ("Value" :: ["Name"]))]
  | Raised e => altair_raised lenient_altair e
  end
  ∧ (∀ field, field ∈ "Value" :: ["Name"] →
              LStr field ∈ columns (frame_after table1)
              ∧ field ≠ "niscode")
  ∧ LStr "niscode" ∈ columns (frame_after table1).
Proof.
  apply (main_plot_after_validation lenient_altair table1 "Value" "Q"
           ["Name"] "reds" "white").
  - reflexivity.
  - vm_compute. apply elem_of_cons. right. left.
  - intros x Hx. apply list_elem_of_singleton in Hx as ->.
    vm_compute. left.
Defined.

(** X8.  In every specification the builder returns, the lookup of the
    data layer fetches the chosen column and then the elements that
    iterating the tooltip columns gave, in order, and the tooltip lists
    the elements that iterating them a second time gave, each followed by
    ":N".  For a list or a string the two iterations give the same
    elements, so the [k]-th tooltip field is the field fetched at position
    [k + 1] followed by ":N"; an iterator is used up by the lookup, so the
    tooltip is empty.  The outline layer looks nothing up. *)
Theorem lookup_fetches_encoded_fields (A : Altair) (topo_data : TopoData)
    (data : DataFrame) (column_name data_type : string)
    (tooltip_columns stroke strokeWidth legend_title scheme
       missing_color : pyval) (spec : LayerChart) :
  create_plot A topo_data data column_name data_type tooltip_columns
              stroke strokeWidth legend_title scheme missing_color
  = Returned spec →
  ∃ fetched rest outline colored,
    py_iter tooltip_columns = Returned (fetched, rest)
    ∧ layer spec = [outline; colored]
    ∧ transform outline = []
    ∧ transform colored
      = [mkLookup "properties.CODE_INS"
                  (mkLookupData data "niscode" (column_name :: fetched))]
    ∧ ((∀ l, tooltip_columns ≠ PyIterator l) →
       encoding_tooltip colored
       = Some ((λ column, column +:+ ":N") <$> fetched))
    ∧ (∀ l, tooltip_columns = PyIterator l →
            fetched = l ∧ encoding_tooltip colored = Some []).
Proof.
  intros (fetched & rest & cols & rest' & Hf & Hc & -> & _)
    %create_plot_Returned.
  exists fetched, rest. do 2 eexists.
  split; [done|]. split; [reflexivity|]. simpl.
  split; [done|]. split; [done|].
  destruct tooltip_columns as [|t|q|l|l]; simpl in Hf; try discriminate;
    injection Hf as <- <-; simpl in Hc; injection Hc as <- <-.
  - split; [done | by intros ? [=]].
  - split; [done | by intros ? [=]].
  - split; [intros Hnot; by destruct (Hnot l) | by intros ? [= <-]].
Qed.

Lemma lookup_fetches_encoded_fields_witness :
  ∃ fetched rest outline colored,
    py_iter (PyList ["Name"; "Value"]) = Returned (fetched, rest)
    ∧ layer
        (layered
           (outline_layer topo_municipalities Default.stroke
              Default.strokeWidth Default.missing_color)
           (data_layer topo_municipalities table1 "Value" "Q"
              (PyStr "Value") Default.scheme ["Name:N"; "Value:N"]
              ["Value"; "Name"; "Value"]))
      = [outline; colored]
    ∧ transform outline = []
    ∧ transform colored
      = [mkLookup "properties.CODE_INS"
                  (mkLookupData table1 "niscode" ("Value" :: fetched))]
    ∧ ((∀ l, PyList ["Name"; "Value"] ≠ PyIterator l) →
       encoding_tooltip colored
       = Some ((λ column, column +:+ ":N") <$> fetched))
    ∧ (∀ l, PyList ["Name"; "Value"] = PyIterator l →
            fetched = l ∧ encoding_tooltip colored = Some []).
Proof.
  apply (lookup_fetches_encoded_fields lenient_altair topo_municipalities
           table1 "Value" "Q" (PyList ["Name"; "Value"]) Default.stroke
           Default.strokeWidth Default.legend_title Default.scheme
           Default.missing_color).
  reflexivity.
Defined.

(** X9.  For any arguments, a convenience entry point returns a
    specification only when the value passed as [stroke] can be iterated
    and the value passed as [legend_title] is not [None] (it becomes the
    stroke width); otherwise it raises, as it does when Altair refuses
    another object.  In a specification it returns the outline is filled
    with "white" whatever [missing_color] is, its stroke and stroke width
    are the values passed as [strokeWidth] and [legend_title], the colour
    scale uses the value passed as [missing_color], the legend title is
    the value passed as [scheme] (the column name when that is [None]),
    and the fields looked up after the column are the elements of
    [stroke]. *)
Theorem preset_outcome (A : Altair) (topo_data : TopoData)
    (data : DataFrame) (column_name : string)
    (stroke strokeWidth legend_title scheme missing_color : pyval) :
  let shape (data_type : string) (result : outcome LayerChart) :=
    match result with
    | Returned spec =>
        ∃ fetched rest outline colored,
          py_iter stroke = Returned (fetched, rest)
          ∧ legend_title ≠ PyNone
          ∧ layer spec = [outline; colored]
          ∧ encoding_color outline = Some (ColorValue (PyStr "white"))
          ∧ mark outline
            = Some (mkMark "geoshape" (Some strokeWidth) (Some legend_title))
          ∧ encoding_color colored
            = Some (Color (column_name +:+ ":" +:+ data_type)
                          (mkLegend (if is_None scheme then PyStr column_name
                                     else scheme))
                          (mkScale missing_color))
          ∧ transform colored
            = [mkLookup "properties.CODE_INS"
                        (mkLookupData data "niscode"
                                      (column_name :: fetched))]
    | Raised e => py_iter stroke = Raised e ∨ altair_raised A e
    end in
  shape "Q" (create_quantitative_plot A topo_data data column_name stroke
               strokeWidth legend_title scheme missing_color)
  ∧ shape "N" (create_nominal_plot A topo_data data column_name stroke
                 strokeWidth legend_title scheme missing_color).
Proof.
  intros shape.
  assert (∀ data_type,
            shape data_type
              (create_plot A topo_data data column_name data_type stroke
                 strokeWidth legend_title scheme missing_color
                 Default.missing_color)) as Hshape.
  { intros data_type. unfold shape.
    destruct (create_plot A topo_data data column_name data_type stroke
                strokeWidth legend_title scheme missing_color
                Default.missing_color) as [spec|e] eqn:Hplot.
    - apply create_plot_Returned in Hplot
        as (fetched & rest & cols & rest' & Hf & Hc & -> & _ & Hmark).
      exists fetched, rest. do 2 eexists. split; [done|]. split.
      { intros ->.
        destruct (null_stroke_width A
                    (with_mark (Some strokeWidth) (Some PyNone)
                       (new_chart topo_data))
                    (mkMark "geoshape" (Some strokeWidth) (Some PyNone))
                    eq_refl eq_refl) as [e He].
        congruence. }
      split; [reflexivity|]. simpl. by repeat split.
    - by apply create_plot_Raised in Hplot. }
  split; apply Hshape.
Qed.
